(** * Prompt improver: the rule engine and its delivery boundary

    A shallow embedding of [main.py], [auto_improve_main.py] and [server.py].
    The engine [enhance_prompt_structure] is a pure text-to-text function;
    the tool-call handlers and the HTTP route around it read one optional
    file and may raise.

    Python [str] values are modelled as [string]: a character is one of the
    code points 0..255, and [isspace], [lower_char] below are Python's
    [str.isspace] and [str.lower] on exactly that range. *)

From Stdlib Require Import Ascii String List Bool NArith Lia.
From stdpp Require Import base option gmap strings.

Local Open Scope string_scope.
Local Open Scope list_scope.

(** ** Python string primitives *)

Module Py.

(** [str.isspace] on one character: TAB..CR, FS..US and space, NEL, NBSP. *)
Definition isspace (c : ascii) : bool :=
  let n := N_of_ascii c in
  ((9 <=? n) && (n <=? 13) || (28 <=? n) && (n <=? 32)
   || (n =? 133) || (n =? 160))%N.

(** [str.lower] on one character: A..Z and the upper-case letters
    192..222 (all but the multiplication sign 215) move up by 32. *)
Definition lower_char (c : ascii) : ascii :=
  let n := N_of_ascii c in
  if ((65 <=? n) && (n <=? 90)
      || (192 <=? n) && (n <=? 222) && negb (n =? 215))%N
  then ascii_of_N (n + 32) else c.

(** [s.lower()]; on code points 0..255 it is one character for one
    character, which it is not on all of Unicode *)
Fixpoint lower (s : string) : string :=
  match s with
  | "" => ""
  | String c s' => String (lower_char c) (lower s')
  end.

(** [s.lstrip()] *)
Fixpoint lstrip (s : string) : string :=
  match s with
  | "" => ""
  | String c s' => if isspace c then lstrip s' else s
  end.

(** [s.rstrip()] *)
Fixpoint rstrip (s : string) : string :=
  match s with
  | "" => ""
  | String c s' =>
      match rstrip s' with
      | "" => if isspace c then "" else String c ""
      | r => String c r
      end
  end.

(** [s.strip()] *)
Definition strip (s : string) : string := rstrip (lstrip s).

(** [s.startswith(pre)] *)
Fixpoint startswith (pre s : string) : bool :=
  match pre, s with
  | "", _ => true
  | String _ _, "" => false
  | String a pre', String b s' => Ascii.eqb a b && startswith pre' s'
  end.

(** [sub in s] *)
Fixpoint contains (sub s : string) : bool :=
  startswith sub s
  || match s with
     | "" => false
     | String _ s' => contains sub s'
     end.

(** [s.endswith(suf)] *)
Fixpoint endswith (suf s : string) : bool :=
  String.eqb suf s
  || match s with
     | "" => false
     | String _ s' => endswith suf s'
     end.

(** [s.split()]: the maximal runs of non-whitespace characters. *)
Definition starts_word (s : string) : bool :=
  match s with
  | "" => false
  | String c _ => negb (isspace c)
  end.

Fixpoint split (s : string) : list string :=
  match s with
  | "" => []
  | String c s' =>
      if isspace c then split s'
      else if starts_word s' then
        match split s' with
        | w :: ws => String c w :: ws
        | [] => [String c ""]
        end
      else String c "" :: split s'
  end.

(** [any(word in text for word in words)] *)
Definition any_in (words : list string) (text : string) : bool :=
  existsb (fun word => contains word text) words.

(** truthiness of a [str]: [if s:] *)
Definition truthy (s : string) : bool := negb (String.eqb s "").

(** the line feed of the ["\n"] escapes *)
Definition nl : string := String "010"%char "".

End Py.

Import Py.

(** ** The engine of [main.py] (and, character for character, [server.py]) *)

Module Main.

Definition developer_words : list string := ["code"; "program"; "develop"].
Definition writer_words : list string := ["write"; "document"; "explain"].
Definition code_words : list string := ["code"; "function"; "script"].

Definition developer_role : string := "Act as an expert software developer. ".
Definition writer_role : string := "Act as a technical writer. ".

Definition specificity : string :=
  ". Please provide detailed steps and examples.".

Definition code_format : string :=
  nl +:+ nl +:+ "Please include:" +:+ nl
  +:+ "- Clear comments explaining the code" +:+ nl
  +:+ "- Error handling where appropriate" +:+ nl
  +:+ "- Example usage".

Definition closing : string :=
  "Ensure the response is practical and actionable.".

(** the [if]/[elif] chain on [prompt.lower()] *)
Definition add_role (prompt enhanced : string) : string :=
  if any_in developer_words (lower prompt) then developer_role +:+ enhanced
  else if any_in writer_words (lower prompt) then writer_role +:+ enhanced
  else enhanced.

Definition add_specificity (enhanced : string) : string :=
  if (length (split enhanced) <? 10)%nat then enhanced +:+ specificity
  else enhanced.

Definition add_context (context enhanced : string) : string :=
  if truthy context then enhanced +:+ nl +:+ nl +:+ "Context: " +:+ context
  else enhanced.

Definition add_code_format (enhanced : string) : string :=
  if any_in code_words (lower enhanced) then enhanced +:+ code_format
  else enhanced.

Definition add_constraints (enhanced : string) : string :=
  enhanced +:+ nl +:+ nl +:+ closing.

Definition enhance_prompt_structure
    (prompt context : string) (improvements : list string) : string :=
  let enhanced := strip prompt in
  let enhanced := add_role prompt enhanced in
  let enhanced := add_specificity enhanced in
  let enhanced := add_context context enhanced in
  let enhanced := add_code_format enhanced in
  add_constraints enhanced.

End Main.

(** ** The engine of [auto_improve_main.py] *)

Module AutoImprove.

Definition developer_words : list string := ["code"; "program"; "develop"].
Definition writer_words : list string := ["write"; "document"; "explain"].
Definition designer_words : list string := ["design"; "ui"; "ux"].
Definition analyst_words : list string := ["data"; "analysis"; "statistics"].
Definition code_words : list string :=
  ["code"; "function"; "script"; "program"].
Definition explain_words : list string :=
  ["explain"; "describe"; "what is"; "how does"].

Definition developer_role : string := "Act as an expert software developer. ".
Definition writer_role : string := "Act as a technical writer. ".
Definition designer_role : string := "Act as a UX/UI designer. ".
Definition analyst_role : string := "Act as a data analyst. ".

Definition specificity : string :=
  ". Please provide detailed steps, examples, and explanations.".

Definition code_format : string :=
  nl +:+ nl +:+ "Please include:" +:+ nl
  +:+ "- Clear comments explaining the code" +:+ nl
  +:+ "- Error handling where appropriate" +:+ nl
  +:+ "- Example usage" +:+ nl
  +:+ "- Brief explanation of the approach".

Definition explain_format : string :=
  nl +:+ nl +:+ "Please structure your response with:" +:+ nl
  +:+ "- Clear introduction" +:+ nl
  +:+ "- Step-by-step explanation" +:+ nl
  +:+ "- Practical examples" +:+ nl
  +:+ "- Summary of key points".

Definition closing : string :=
  "Ensure the response is practical, actionable, and easy to understand.".

Definition add_role (prompt enhanced : string) : string :=
  if any_in developer_words (lower prompt) then developer_role +:+ enhanced
  else if any_in writer_words (lower prompt) then writer_role +:+ enhanced
  else if any_in designer_words (lower prompt) then designer_role +:+ enhanced
  else if any_in analyst_words (lower prompt) then analyst_role +:+ enhanced
  else enhanced.

Definition add_specificity (enhanced : string) : string :=
  if (length (split enhanced) <? 10)%nat then enhanced +:+ specificity
  else enhanced.

Definition add_context (context enhanced : string) : string :=
  if truthy context then enhanced +:+ nl +:+ nl +:+ "Context: " +:+ context
  else enhanced.

Definition add_code_format (enhanced : string) : string :=
  if any_in code_words (lower enhanced) then enhanced +:+ code_format
  else enhanced.

Definition add_explain_format (enhanced : string) : string :=
  if any_in explain_words (lower enhanced) then enhanced +:+ explain_format
  else enhanced.

Definition add_constraints (enhanced : string) : string :=
  enhanced +:+ nl +:+ nl +:+ closing.

Definition enhance_prompt_structure
    (prompt context : string) (improvements : list string) : string :=
  let enhanced := strip prompt in
  let enhanced := add_role prompt enhanced in
  let enhanced := add_specificity enhanced in
  let enhanced := add_context context enhanced in
  let enhanced := add_code_format enhanced in
  let enhanced := add_explain_format enhanced in
  add_constraints enhanced.

End AutoImprove.

(** ** Effects of the delivery boundary

    The handlers read one optional file, may raise, and call the engine.
    A computation takes the file system it runs in and the log of engine
    calls made so far; it gives back a value or an exception, and the log. *)

Inductive file : Type :=
  | Readable (content : string)
  | Unreadable (message : string).

Record world : Type := World {
  module_dir : string;
  fs : gmap string file
}.

Inductive exn : Type :=
  | ValueError (message : string)
  | OSError (message : string).

(** [str(e)] *)
Definition str (e : exn) : string :=
  match e with
  | ValueError m => m
  | OSError m => m
  end.

Inductive outcome (A : Type) : Type :=
  | Return (a : A)
  | Raise (e : exn).
Arguments Return {A} a.
Arguments Raise {A} e.

Record call : Type := Call {
  call_prompt : string;
  call_context : string;
  call_improvements : list string
}.

Definition io (A : Type) : Type :=
  world -> list call -> outcome A * list call.

Definition ret {A} (a : A) : io A := fun _ log => (Return a, log).

Definition raise {A} (e : exn) : io A := fun _ log => (Raise e, log).

Definition bind {A B} (m : io A) (k : A -> io B) : io B :=
  fun w log =>
    match m w log with
    | (Return a, log') => k a w log'
    | (Raise e, log') => (Raise e, log')
    end.

(** [try: m except Exception as e: handler(e)] *)
Definition try_except {A} (m : io A) (handler : exn -> io A) : io A :=
  fun w log =>
    match m w log with
    | (Return a, log') => (Return a, log')
    | (Raise e, log') => handler e w log'
    end.

Notation "x <- m ;; k" := (bind m (fun x => k))
  (at level 100, m at next level, right associativity).

(** [Path(__file__).parent / name] *)
Definition sibling (name : string) : io string :=
  fun w log => (Return (module_dir w +:+ "/" +:+ name), log).

(** [path.exists()] *)
Definition path_exists (path : string) : io bool :=
  fun w log => (Return (bool_decide (is_Some (fs w !! path))), log).

(** [path.read_text(encoding="utf-8")] *)
Definition read_text (path : string) : io string :=
  fun w log =>
    match fs w !! path with
    | Some (Readable content) => (Return content, log)
    | Some (Unreadable message) => (Raise (OSError message), log)
    | None => (Raise (OSError ("No such file or directory: " +:+ path)), log)
    end.

(** a call of the engine [f], recorded in the log *)
Definition engine (f : string -> string -> list string -> string)
    (prompt context : string) (improvements : list string) : io string :=
  fun _ log => (Return (f prompt context improvements),
                log ++ [Call prompt context improvements]).

(** [read_improvement_prompt], the same in the three files *)
Definition read_improvement_prompt : io string :=
  prompt_file <- sibling "improvement_prompt.md" ;;
  present <- path_exists prompt_file ;;
  if (present : bool) then read_text prompt_file
  else ret "Improve the following prompt to be clearer and more effective:".

(** [improve_prompt_locally], the same in the three files but for the
    engine it ends in *)
Definition improve_prompt_locally
    (enhance : string -> string -> list string -> string)
    (user_prompt context : string) : io string :=
  improvement_instructions <- read_improvement_prompt ;;
  let improvements := [] in
  let improvements :=
    if (length (split user_prompt) <? 5)%nat
    then improvements ++ ["Make the request more specific and detailed"]
    else improvements in
  let improvements :=
    if negb (truthy context)
       && negb (any_in ["python"; "javascript"; "web"; "app"; "code"]
                       (lower user_prompt))
    then improvements
           ++ ["Consider adding context about the technology or domain"]
    else improvements in
  let improvements :=
    if negb (any_in ["create"; "build"; "write"; "generate"; "help";
                     "explain"; "show"] (lower user_prompt))
    then improvements ++ ["Specify what action you want performed"]
    else improvements in
  improved <- engine enhance user_prompt context improvements ;;
  ret improved.

Record TextContent : Type := mkTextContent {
  type : string;
  text : string
}.

(** [arguments.get(key, "")] on the string-valued arguments of a tool call *)
Definition get (arguments : gmap string string) (key : string) : string :=
  default "" (arguments !! key).

Module MainServer.

Definition handle_call_tool (name : string) (arguments : gmap string string)
    : io (list TextContent) :=
  if negb (String.eqb name "improve_prompt")
  then raise (ValueError ("Unknown tool: " +:+ name))
  else
    let user_prompt := get arguments "user_prompt" in
    let context := get arguments "context" in
    if negb (truthy user_prompt)
    then ret [mkTextContent "text" "Error: No prompt provided to improve."]
    else
      try_except
        (improved_prompt <-
           improve_prompt_locally Main.enhance_prompt_structure
             user_prompt context ;;
         ret [mkTextContent "text" improved_prompt])
        (fun e =>
           ret [mkTextContent "text" ("Error improving prompt: " +:+ str e)]).

End MainServer.

Module AutoImproveServer.

Definition handle_call_tool (name : string) (arguments : gmap string string)
    : io (list TextContent) :=
  if String.eqb name "improve_prompt" then
    let user_prompt := get arguments "user_prompt" in
    let context := get arguments "context" in
    if negb (truthy user_prompt)
    then ret [mkTextContent "text" "Error: No prompt provided to improve."]
    else
      try_except
        (improved_prompt <-
           improve_prompt_locally AutoImprove.enhance_prompt_structure
             user_prompt context ;;
         ret [mkTextContent "text" improved_prompt])
        (fun e =>
           ret [mkTextContent "text" ("Error improving prompt: " +:+ str e)])
  else if String.eqb name "auto_improve_all_prompts" then
    let user_message := get arguments "user_message" in
    if negb (truthy user_message)
    then ret [mkTextContent "text" "Error: No message provided to improve."]
    else
      try_except
        (improved_message <-
           improve_prompt_locally AutoImprove.enhance_prompt_structure
             user_message "" ;;
         ret [mkTextContent "text"
                ("IMPROVED PROMPT:" +:+ nl +:+ nl +:+ improved_message
                 +:+ nl +:+ nl +:+ "---" +:+ nl +:+ nl
                 +:+ "ORIGINAL: " +:+ user_message)])
        (fun e =>
           ret [mkTextContent "text" ("Error improving message: " +:+ str e)])
  else raise (ValueError ("Unknown tool: " +:+ name)).

End AutoImproveServer.

(** ** The tools the servers advertise: [handle_list_tools] *)

(** one entry of the ["properties"] of an input schema *)
Record property_schema : Type := mkProperty {
  property_type : string;
  property_description : string;
  property_default : option string
}.

(** the [inputSchema] dict of a tool *)
Record input_schema : Type := mkSchema {
  schema_type : string;
  properties : gmap string property_schema;
  required : list string
}.

Record Tool : Type := mkTool {
  name : string;
  description : string;
  inputSchema : input_schema
}.

Module MainTools.

Definition handle_list_tools : list Tool :=
  [ mkTool "improve_prompt"
      "Improve a user's prompt using AI sampling to make it clearer and more effective"
      (mkSchema "object"
         {[ "user_prompt" :=
              mkProperty "string"
                "The original prompt from the user that needs improvement"
                None;
            "context" :=
              mkProperty "string"
                "Optional context about what the user is trying to achieve"
                (Some "") ]}
         ["user_prompt"]) ].

End MainTools.

Module AutoImproveTools.

Definition handle_list_tools : list Tool :=
  [ mkTool "improve_prompt"
      "Improve a user's prompt using AI sampling to make it clearer and more effective"
      (mkSchema "object"
         {[ "user_prompt" :=
              mkProperty "string"
                "The original prompt from the user that needs improvement"
                None;
            "context" :=
              mkProperty "string"
                "Optional context about what the user is trying to achieve"
                (Some "") ]}
         ["user_prompt"]);
    mkTool "auto_improve_all_prompts"
      "Automatically improve any user message before processing. Use this for every user interaction."
      (mkSchema "object"
         {[ "user_message" :=
              mkProperty "string" "The user's original message/prompt" None ]}
         ["user_message"]) ].

End AutoImproveTools.

(** ** The HTTP endpoint of [server.py] *)

Module HttpServer.

Record PromptRequest : Type := mkPromptRequest {
  user_prompt : string;
  context : string
}.

Record PromptResponse : Type := mkPromptResponse {
  improved_prompt : string
}.

Record HTTPException : Type := mkHTTPException {
  status_code : nat;
  detail : string
}.

(** what a route gives back: a response body, or a raised [HTTPException] *)
Inductive answer (A : Type) : Type :=
  | Respond (a : A)
  | RaiseHTTP (e : HTTPException).
Arguments Respond {A} a.
Arguments RaiseHTTP {A} e.

(** [server.py] repeats [enhance_prompt_structure] of [main.py] line for
    line *)
Definition enhance_prompt_structure
    : string -> string -> list string -> string :=
  Main.enhance_prompt_structure.

(** [POST /improve-prompt]: the first [raise] is outside the [try]; inside
    it every exception becomes a 500 *)
Definition improve_prompt (request : PromptRequest)
    : world -> list call -> answer PromptResponse * list call :=
  fun w log =>
    if negb (truthy (user_prompt request))
    then (RaiseHTTP (mkHTTPException 400 "No prompt provided to improve"),
          log)
    else
      match improve_prompt_locally enhance_prompt_structure
              (user_prompt request) (context request) w log with
      | (Return improved, log') => (Respond (mkPromptResponse improved), log')
      | (Raise e, log') =>
          (RaiseHTTP
             (mkHTTPException 500 ("Error improving prompt: " +:+ str e)),
           log')
      end.

End HttpServer.

(** ** Vocabulary of the statements *)

(** [c] does not occur in [sub] *)
Definition lacks (c : ascii) (sub : string) : Prop :=
  contains (String c "") sub = false.

(** whitespace only *)
Fixpoint blank (s : string) : bool :=
  match s with
  | "" => true
  | String c s' => isspace c && blank s'
  end.

(** the last character of a string and what is before it *)
Fixpoint unsnoc (s : string) : option (string * ascii) :=
  match s with
  | "" => None
  | String c s' =>
      match unsnoc s' with
      | None => Some ("", c)
      | Some (init, z) => Some (String c init, z)
      end
  end.

(** [sub] occurs neither in [tail] past its first character nor has that
    character, so no occurrence of [sub] can reach into [tail]; likewise for
    [head] and its last character *)
Definition clean_tail (sub tail : string) : bool :=
  match tail with
  | "" => true
  | String c tail' =>
      negb (contains (String c "") sub) && negb (contains sub tail')
  end.

Definition clean_head (sub head : string) : bool :=
  match unsnoc head with
  | None => true
  | Some (init, z) =>
      negb (contains (String z "") sub) && negb (contains sub init)
  end.

(** a stage that only appends to the buffer *)
Definition extends (stage : string -> string) : Prop :=
  forall e, exists t, stage e = e +:+ t.

(** The role rule in the specification's words: an ordered table of trigger
    sets, each with its sentence; the first set with a trigger in the text
    gives the sentence, and no later set is looked at. *)
Definition spec_roles : list (list string * string) :=
  [ (["code"; "program"; "develop"], "Act as an expert software developer. ");
    (["write"; "document"; "explain"], "Act as a technical writer. ");
    (["design"; "ui"; "ux"], "Act as a UX/UI designer. ");
    (["data"; "analysis"; "statistics"], "Act as a data analyst. ") ].

Fixpoint first_match (table : list (list string * string)) (text : string)
    : list string :=
  match table with
  | [] => []
  | (triggers, sentence) :: table' =>
      if any_in triggers text then [sentence] else first_match table' text
  end.

(** the path of the instructions file next to the module *)
Definition instructions_path (w : world) : string :=
  module_dir w +:+ "/" +:+ "improvement_prompt.md".

Definition default_instructions : string :=
  "Improve the following prompt to be clearer and more effective:".

(** no whitespace character anywhere *)
Fixpoint nospace (s : string) : bool :=
  match s with
  | "" => true
  | String c s' => negb (isspace c) && nospace s'
  end.

(** a non-empty word without whitespace *)
Definition solid (word : string) : bool := starts_word word && nospace word.

(** the instructions file is absent, or can be read *)
Definition instructions_ok (w : world) : Prop :=
  forall message, fs w !! instructions_path w <> Some (Unreadable message).

(** the names of a list of tools *)
Definition tool_names (tools : list Tool) : list string := map name tools.



(** the payload of [auto_improve_all_prompts] around the improved text *)
Definition composite (user_message improved : string) : string :=
  "IMPROVED PROMPT:" +:+ nl +:+ nl +:+ improved
  +:+ nl +:+ nl +:+ "---" +:+ nl +:+ nl +:+ "ORIGINAL: " +:+ user_message.

(** ** The primitives on small inputs *)

Example split_runs :
  split ("  write a" +:+ nl +:+ " function ") = ["write"; "a"; "function"].
Proof. reflexivity. Qed.

Example strip_both_ends : strip ("  fix  my code " +:+ nl) = "fix  my code".
Proof. reflexivity. Qed.

Example coder_has_code :
  any_in Main.developer_words (lower "Ask the CODER") = true.
Proof. reflexivity. Qed.

Example empty_word_everywhere : contains "" "" = true.
Proof. reflexivity. Qed.

(** ** Facts about the string primitives *)

Section StringFacts.

Implicit Types s t sub pre l r : string.
Implicit Types a b c : ascii.

Lemma app_cons a s t : String a s +:+ t = String a (s +:+ t).
Proof. reflexivity. Qed.

Lemma app_nil_l s : "" +:+ s = s.
Proof. reflexivity. Qed.

Lemma app_nil_r s : s +:+ "" = s.
Proof. induction s as [|a s IH]; [done|]. by rewrite app_cons, IH. Qed.

Lemma app_assoc s t r : (s +:+ t) +:+ r = s +:+ t +:+ r.
Proof. induction s as [|a s IH]; [done|]. by rewrite !app_cons, IH. Qed.

Lemma lower_app s t : lower (s +:+ t) = lower s +:+ lower t.
Proof.
  induction s as [|a s IH]; [done|].
  rewrite app_cons. simpl. by rewrite IH, app_cons.
Qed.

(** *** [startswith] *)

Lemma startswith_spec pre s :
  startswith pre s = true <-> exists r, s = pre +:+ r.
Proof.
  revert s. induction pre as [|a pre IH]; intros s.
  - split; [intros _; by exists s|done].
  - destruct s as [|b s]; simpl.
    + split; [done|]. intros [r Hr]. by rewrite app_cons in Hr.
    + rewrite andb_true_iff, Ascii.eqb_eq, IH. split.
      * intros [-> [r ->]]. by exists r.
      * intros [r Hr]. rewrite app_cons in Hr.
        injection Hr as -> ->. eauto.
Qed.

Lemma startswith_app pre r : startswith pre (pre +:+ r) = true.
Proof. apply startswith_spec. by exists r. Qed.

(** *** [contains] *)

Lemma contains_cons sub a s :
  contains sub (String a s) = startswith sub (String a s) || contains sub s.
Proof. reflexivity. Qed.

Lemma contains_spec sub s :
  contains sub s = true <-> exists l r, s = l +:+ sub +:+ r.
Proof.
  induction s as [|a s IH].
  - simpl. rewrite orb_false_r, startswith_spec. split.
    + intros [r Hr]. by exists "", r.
    + intros [[|b l] [r Hr]]; [by exists r|done].
  - rewrite contains_cons, orb_true_iff, startswith_spec, IH. split.
    + intros [[r Hr]|[l [r Hr]]].
      * by exists "", r.
      * exists (String a l), r. by rewrite app_cons, Hr.
    + intros [[|b l] [r Hr]].
      * left. by exists r.
      * right. rewrite app_cons in Hr. injection Hr as -> ->. eauto.
Qed.

Lemma contains_middle sub l r : contains sub (l +:+ sub +:+ r) = true.
Proof. apply contains_spec. eauto. Qed.

Lemma contains_refl sub : contains sub sub = true.
Proof. apply contains_spec. exists "", "". by rewrite app_nil_r. Qed.

Lemma contains_app_l sub s t :
  contains sub s = true -> contains sub (s +:+ t) = true.
Proof.
  rewrite !contains_spec. intros [l [r ->]].
  exists l, (r +:+ t). by rewrite !app_assoc.
Qed.

Lemma contains_app_r sub s t :
  contains sub t = true -> contains sub (s +:+ t) = true.
Proof.
  rewrite !contains_spec. intros [l [r ->]].
  exists (s +:+ l), r. by rewrite !app_assoc.
Qed.

Lemma any_in_app_l words s t :
  any_in words s = true -> any_in words (s +:+ t) = true.
Proof.
  unfold any_in. rewrite !existsb_exists.
  intros [w [Hw Hc]]. exists w. eauto using contains_app_l.
Qed.


(** *** [endswith] *)

Lemma endswith_spec suf s :
  endswith suf s = true <-> exists l, s = l +:+ suf.
Proof.
  induction s as [|a s IH]; simpl.
  - rewrite orb_false_r, String.eqb_eq. split.
    + intros ->. by exists "".
    + intros [[|b l] Hl]; [done|by rewrite app_cons in Hl].
  - rewrite orb_true_iff, String.eqb_eq, IH. split.
    + intros [->|[l ->]]; [by exists ""|by exists (String a l)].
    + intros [[|b l] Hl]; [by left|].
      right. rewrite app_cons in Hl. injection Hl as -> ->. eauto.
Qed.

Lemma endswith_app l suf : endswith suf (l +:+ suf) = true.
Proof. apply endswith_spec. eauto. Qed.

(** *** Occurrences across a character that the pattern does not have *)

Lemma lacks_cons c a sub :
  lacks c (String a sub) <-> a <> c /\ lacks c sub.
Proof.
  unfold lacks. rewrite contains_cons. simpl.
  rewrite andb_true_r, orb_false_iff, Ascii.eqb_neq.
  split; intros [H1 H2]; split; first [done|congruence].
Qed.

Lemma startswith_sep sub c l r :
  lacks c sub ->
  startswith sub (l +:+ String c r) = startswith sub l.
Proof.
  revert l. induction sub as [|a sub IH]; intros l Hl; [by destruct l|].
  apply lacks_cons in Hl as [Hac Hl].
  destruct l as [|b l].
  - rewrite app_nil_l. simpl. by apply Ascii.eqb_neq in Hac as ->.
  - rewrite app_cons. simpl. by rewrite IH.
Qed.

Lemma contains_sep sub c l r :
  lacks c sub ->
  contains sub (l +:+ String c r) = contains sub l || contains sub r.
Proof.
  intros Hl. induction l as [|b l IH].
  - rewrite app_nil_l, contains_cons.
    rewrite <-(app_nil_l (String c r)), startswith_sep by done.
    simpl. by rewrite orb_false_r.
  - rewrite app_cons, !contains_cons, IH, <-app_cons.
    by rewrite startswith_sep, orb_assoc.
Qed.

(** *** [strip] *)

Lemma lstrip_suffix s : exists l, s = l +:+ lstrip s.
Proof.
  induction s as [|a s [l IH]]; [by exists ""|]. simpl.
  destruct (isspace a); [|by exists ""].
  exists (String a l). by rewrite app_cons, <-IH.
Qed.

Lemma rstrip_prefix s : exists r, s = rstrip s +:+ r.
Proof.
  induction s as [|a s [r IH]]; [by exists ""|]. simpl.
  destruct (rstrip s) as [|b s'] eqn:E.
  - destruct (isspace a); [by exists (String a s)|].
    exists r. by rewrite app_cons, <-IH.
  - exists r. by rewrite app_cons, <-IH.
Qed.

Lemma strip_middle s : exists l r, s = l +:+ strip s +:+ r.
Proof.
  destruct (lstrip_suffix s) as [l Hl].
  destruct (rstrip_prefix (lstrip s)) as [r Hr].
  exists l, r. unfold strip. by rewrite <-Hr.
Qed.

Lemma contains_strip sub s :
  contains sub (strip s) = true -> contains sub s = true.
Proof.
  intros H. destruct (strip_middle s) as [l [r Hs]]. rewrite Hs.
  by apply contains_app_r, contains_app_l.
Qed.

(** *** Strings of whitespace only *)

Lemma isspace_lower_char c : isspace c = true -> lower_char c = c.
Proof.
  destruct c as [[] [] [] [] [] [] [] []]; vm_compute; congruence.
Qed.

Lemma lower_blank s : blank s = true -> lower s = s.
Proof.
  induction s as [|a s IH]; [done|]. simpl.
  intros [Ha Hs]%andb_true_iff. by rewrite isspace_lower_char, IH.
Qed.

Lemma lstrip_blank s : blank s = true -> lstrip s = "".
Proof.
  induction s as [|a s IH]; [done|]. simpl.
  intros [-> Hs]%andb_true_iff. auto.
Qed.

Lemma strip_blank s : blank s = true -> strip s = "".
Proof. intros H. unfold strip. by rewrite lstrip_blank. Qed.

Lemma contains_blank a sub s :
  isspace a = false -> blank s = true -> contains (String a sub) s = false.
Proof.
  intros Ha. induction s as [|b s IH]; [done|].
  intros [Hb Hs]%andb_true_iff. rewrite contains_cons, IH by done.
  simpl. destruct (Ascii.eqb_spec a b) as [->|]; [congruence|done].
Qed.

End StringFacts.

(** ** Occurrences of a pattern in a buffer between a fixed head and tail *)

Section Sandwich.

Implicit Types s sub head tail e : string.

Lemma unsnoc_spec s init z :
  unsnoc s = Some (init, z) -> s = init +:+ String z "".
Proof.
  revert init. induction s as [|c s IH]; intros init; [done|]. simpl.
  destruct (unsnoc s) as [[i y]|] eqn:E.
  - intros [= <- <-]. by rewrite app_cons, <-IH.
  - intros [= <- <-]. destruct s as [|? s]; [done|].
    simpl in E. by destruct (unsnoc s) as [[]|].
Qed.

Lemma contains_clean_tail sub e tail :
  clean_tail sub tail = true ->
  contains sub (e +:+ tail) = contains sub e.
Proof.
  destruct tail as [|c tail]; [by rewrite app_nil_r|]. simpl.
  intros [Hc Ht]%andb_true_iff.
  apply negb_true_iff in Hc, Ht.
  by rewrite contains_sep, Ht, orb_false_r.
Qed.

Lemma contains_clean_head sub head e :
  clean_head sub head = true ->
  contains sub (head +:+ e) = contains sub e.
Proof.
  unfold clean_head. destruct (unsnoc head) as [[init z]|] eqn:E.
  - intros [Hz Hi]%andb_true_iff. apply negb_true_iff in Hz, Hi.
    rewrite (unsnoc_spec _ _ _ E), app_assoc, app_cons, app_nil_l.
    by rewrite contains_sep, Hi.
  - destruct head as [|c h]; [done|].
    simpl in E. by destruct (unsnoc h) as [[]|].
Qed.

End Sandwich.

(** ** Every stage after the first only appends *)

Lemma extends_if (b : string -> bool) (t : string) :
  extends (fun e => if b e then e +:+ t else e).
Proof.
  intros e. destruct (b e); [by exists t|]. exists "". by rewrite app_nil_r.
Qed.

Lemma extends_compose f g : extends f -> extends g -> extends (fun e => g (f e)).
Proof.
  intros Hf Hg e. destruct (Hf e) as [t Ht]. destruct (Hg (f e)) as [u Hu].
  exists (t +:+ u). by rewrite Hu, Ht, app_assoc.
Qed.

Lemma contains_extends stage sub e :
  extends stage -> contains sub e = true -> contains sub (stage e) = true.
Proof. intros H Hc. destruct (H e) as [t ->]. by apply contains_app_l. Qed.

Lemma startswith_extends stage e :
  extends stage -> startswith e (stage e) = true.
Proof. intros H. destruct (H e) as [t ->]. apply startswith_app. Qed.

Lemma main_extends_specificity : extends Main.add_specificity.
Proof. apply (extends_if (fun e => (length (split e) <? 10)%nat)). Qed.

Lemma main_extends_context context : extends (Main.add_context context).
Proof.
  intros e. unfold Main.add_context.
  destruct (truthy context); [eauto|]. exists "". by rewrite app_nil_r.
Qed.

Lemma main_extends_code_format : extends Main.add_code_format.
Proof. apply (extends_if (fun e => any_in Main.code_words (lower e))). Qed.

Lemma main_extends_constraints : extends Main.add_constraints.
Proof. intros e. unfold Main.add_constraints. eauto. Qed.

(** the stages that follow the role step, together *)
Lemma main_extends_after_role context :
  extends (fun e => Main.add_constraints
                      (Main.add_code_format
                         (Main.add_context context (Main.add_specificity e)))).
Proof.
  apply (extends_compose
           (fun e => Main.add_code_format
                       (Main.add_context context (Main.add_specificity e)))
           Main.add_constraints); [|apply main_extends_constraints].
  apply (extends_compose
           (fun e => Main.add_context context (Main.add_specificity e))
           Main.add_code_format); [|apply main_extends_code_format].
  apply (extends_compose Main.add_specificity (Main.add_context context));
    [apply main_extends_specificity|apply main_extends_context].
Qed.

Lemma auto_extends_specificity : extends AutoImprove.add_specificity.
Proof. apply (extends_if (fun e => (length (split e) <? 10)%nat)). Qed.

Lemma auto_extends_context context : extends (AutoImprove.add_context context).
Proof.
  intros e. unfold AutoImprove.add_context.
  destruct (truthy context); [eauto|]. exists "". by rewrite app_nil_r.
Qed.

Lemma auto_extends_code_format : extends AutoImprove.add_code_format.
Proof. apply (extends_if (fun e => any_in AutoImprove.code_words (lower e))). Qed.

Lemma auto_extends_explain_format : extends AutoImprove.add_explain_format.
Proof. apply (extends_if (fun e => any_in AutoImprove.explain_words (lower e))). Qed.

Lemma auto_extends_constraints : extends AutoImprove.add_constraints.
Proof. intros e. unfold AutoImprove.add_constraints. eauto. Qed.

(** the stages that follow the role step, together *)
Lemma auto_extends_after_role context :
  extends (fun e => AutoImprove.add_constraints
                      (AutoImprove.add_explain_format
                         (AutoImprove.add_code_format
                            (AutoImprove.add_context context (AutoImprove.add_specificity e))))).
Proof.
  apply (extends_compose
           (fun e => AutoImprove.add_explain_format
                       (AutoImprove.add_code_format
                          (AutoImprove.add_context context (AutoImprove.add_specificity e))))
           AutoImprove.add_constraints); [|apply auto_extends_constraints].
  apply (extends_compose
           (fun e => AutoImprove.add_code_format
                       (AutoImprove.add_context context (AutoImprove.add_specificity e)))
           AutoImprove.add_explain_format); [|apply auto_extends_explain_format].
  apply (extends_compose
           (fun e => AutoImprove.add_context context (AutoImprove.add_specificity e))
           AutoImprove.add_code_format); [|apply auto_extends_code_format].
  apply (extends_compose AutoImprove.add_specificity (AutoImprove.add_context context));
    [apply auto_extends_specificity|apply auto_extends_context].
Qed.

(** ** The engine on the specification's examples *)

(** C1, as stated: the output for ["write a function"] would begin with the
    developer role. It does not: no developer trigger occurs in the prompt. *)
Lemma write_a_function_not_developer :
  startswith "Act as an expert software developer. write a function"
    (Main.enhance_prompt_structure "write a function" "" []) = false
  /\ any_in Main.developer_words (lower "write a function") = false.
Proof. split; reflexivity. Qed.

(** C1, amended: for prompt ["write a function"] and empty context the engine
    of [main.py] returns the writer role and the prompt, then the specificity
    sentence (the buffer has 8 words), the code-format checklist and the
    closing sentence, and nothing else. *)
Theorem write_a_function_output :
  Main.enhance_prompt_structure "write a function" "" []
  = "Act as a technical writer. write a function"
    +:+ Main.specificity +:+ Main.code_format
    +:+ nl +:+ nl +:+ Main.closing
  /\ length (split "Act as a technical writer. write a function") = 8
  /\ any_in Main.code_words
       (lower ("Act as a technical writer. write a function"
               +:+ Main.specificity)) = true
  /\ Main.enhance_prompt_structure "write a function" "" []
     = "Act as a technical writer. write a function"
       +:+ ". Please provide detailed steps and examples."
       +:+ nl +:+ nl +:+ "Please include:" +:+ nl
       +:+ "- Clear comments explaining the code" +:+ nl
       +:+ "- Error handling where appropriate" +:+ nl
       +:+ "- Example usage"
       +:+ nl +:+ nl +:+ "Ensure the response is practical and actionable.".
Proof. repeat split; reflexivity. Qed.

(** C5: for prompt ["Explain how garbage collection works"] and context
    ["Java backend"] the engine of [auto_improve_main.py] returns the writer
    role and the prompt, no specificity sentence (the buffer after the role
    has 10 words, not fewer), then ["Context: Java backend"], the
    explanation-format checklist and the closing sentence, and nothing
    else. *)
Theorem garbage_collection_output :
  let out :=
    AutoImprove.enhance_prompt_structure
      "Explain how garbage collection works" "Java backend" [] in
  out
  = "Act as a technical writer. Explain how garbage collection works"
    +:+ nl +:+ nl +:+ "Context: Java backend"
    +:+ nl +:+ nl +:+ "Please structure your response with:" +:+ nl
    +:+ "- Clear introduction" +:+ nl
    +:+ "- Step-by-step explanation" +:+ nl
    +:+ "- Practical examples" +:+ nl
    +:+ "- Summary of key points"
    +:+ nl +:+ nl
    +:+ "Ensure the response is practical, actionable, and easy to understand."
  /\ startswith
       "Act as a technical writer. Explain how garbage collection works" out
     = true
  /\ length
       (split "Act as a technical writer. Explain how garbage collection works")
     = 10
  /\ contains ". Please provide detailed steps, examples, and explanations."
       out = false
  /\ contains "Please provide" out = false
  /\ contains "Context: Java backend" out = true
  /\ contains
       ("Please structure your response with:" +:+ nl
        +:+ "- Clear introduction" +:+ nl
        +:+ "- Step-by-step explanation" +:+ nl
        +:+ "- Practical examples" +:+ nl
        +:+ "- Summary of key points") out = true
  /\ endswith
       "Ensure the response is practical, actionable, and easy to understand."
       out = true.
Proof. repeat split; reflexivity. Qed.

(** ** Properties of the engine for every input *)

Lemma truthy_nonempty s : s <> "" -> truthy s = true.
Proof. intros H. unfold truthy. by apply negb_true_iff, String.eqb_neq. Qed.

(** C4: whatever the prompt and the context, the output of the engine of
    [main.py] ends with ["Ensure the response is practical and actionable."]
    and the output of the engine of [auto_improve_main.py] with ["Ensure the
    response is practical, actionable, and easy to understand."], each after
    an empty line; so the output is never the empty string. *)
Theorem closing_always (prompt context : string) (improvements : list string) :
  endswith "Ensure the response is practical and actionable."
    (Main.enhance_prompt_structure prompt context improvements) = true
  /\ endswith
       "Ensure the response is practical, actionable, and easy to understand."
       (AutoImprove.enhance_prompt_structure prompt context improvements) = true
  /\ endswith
       (nl +:+ nl +:+ "Ensure the response is practical and actionable.")
       (Main.enhance_prompt_structure prompt context improvements) = true
  /\ endswith
       (nl +:+ nl
        +:+ "Ensure the response is practical, actionable, and easy to understand.")
       (AutoImprove.enhance_prompt_structure prompt context improvements) = true
  /\ Main.enhance_prompt_structure prompt context improvements <> ""
  /\ AutoImprove.enhance_prompt_structure prompt context improvements <> "".
Proof.
  assert (Hne : forall e t, e +:+ nl +:+ nl +:+ t <> "").
  { intros [|a e] t; [done|]. by rewrite app_cons. }
  unfold Main.enhance_prompt_structure, AutoImprove.enhance_prompt_structure,
    Main.add_constraints, AutoImprove.add_constraints.
  change Main.closing
    with "Ensure the response is practical and actionable.".
  change AutoImprove.closing
    with "Ensure the response is practical, actionable, and easy to understand.".
  repeat split; try apply Hne.
  - rewrite <-!app_assoc. apply endswith_app.
  - rewrite <-!app_assoc. apply endswith_app.
  - apply endswith_app.
  - apply endswith_app.
Qed.

(** C2, as stated: with an empty context the output would have no
    ["Context:"]. A prompt that has one keeps it. *)
Lemma context_marker_from_prompt :
  contains "Context:"
    (Main.enhance_prompt_structure "Context: none" "" []) = true
  /\ contains "Context:"
       (AutoImprove.enhance_prompt_structure "Context: none" "" []) = true.
Proof. split; reflexivity. Qed.

Lemma not_contains_strip sub s :
  contains sub s = false -> contains sub (strip s) = false.
Proof.
  intros H. apply not_true_iff_false. intros Hc.
  apply contains_strip in Hc. congruence.
Qed.

(** C2, amended: for every prompt and context, a non-empty context makes the
    output of either engine contain ["Context: " + context]; with an empty
    context, and a prompt that itself has no ["Context:"], the output has no
    ["Context:"]. *)
Theorem context_inclusion (prompt context : string) (improvements : list string) :
  (context <> "" ->
     contains ("Context: " +:+ context)
       (Main.enhance_prompt_structure prompt context improvements) = true
     /\ contains ("Context: " +:+ context)
          (AutoImprove.enhance_prompt_structure prompt context improvements)
        = true)
  /\ (context = "" -> contains "Context:" prompt = false ->
        contains "Context:"
          (Main.enhance_prompt_structure prompt context improvements) = false
        /\ contains "Context:"
             (AutoImprove.enhance_prompt_structure prompt context improvements)
           = false).
Proof.
  split.
  - intros Hc%truthy_nonempty. split.
    + unfold Main.enhance_prompt_structure.
      apply (contains_extends Main.add_constraints),
            (contains_extends Main.add_code_format);
        auto using main_extends_constraints, main_extends_code_format.
      unfold Main.add_context. rewrite Hc.
      do 3 apply contains_app_r. apply contains_refl.
    + unfold AutoImprove.enhance_prompt_structure.
      apply (contains_extends AutoImprove.add_constraints),
            (contains_extends AutoImprove.add_explain_format),
            (contains_extends AutoImprove.add_code_format);
        auto using auto_extends_constraints,
          auto_extends_explain_format,
          auto_extends_code_format.
      unfold AutoImprove.add_context. rewrite Hc.
      do 3 apply contains_app_r. apply contains_refl.
  - intros -> Hp%not_contains_strip. split.
    + unfold Main.enhance_prompt_structure, Main.add_constraints,
        Main.add_code_format, Main.add_context, Main.add_specificity,
        Main.add_role.
      change (truthy "") with false. cbv iota.
      repeat match goal with
             | |- context [if ?b then _ else _] => destruct b
             end;
        rewrite ?app_assoc;
        rewrite ?(contains_clean_head "Context:") by reflexivity;
        by rewrite (contains_clean_tail "Context:") by reflexivity.
    + unfold AutoImprove.enhance_prompt_structure, AutoImprove.add_constraints,
        AutoImprove.add_explain_format, AutoImprove.add_code_format,
        AutoImprove.add_context, AutoImprove.add_specificity,
        AutoImprove.add_role.
      change (truthy "") with false. cbv iota.
      repeat match goal with
             | |- context [if ?b then _ else _] => destruct b
             end;
        rewrite ?app_assoc;
        rewrite ?(contains_clean_head "Context:") by reflexivity;
        by rewrite (contains_clean_tail "Context:") by reflexivity.
Qed.

Lemma context_inclusion_witness :
  contains "Context: Python"
    (Main.enhance_prompt_structure "fix it" "Python" []) = true
  /\ contains "Context:"
       (AutoImprove.enhance_prompt_structure "fix it" "" []) = false.
Proof.
  split.
  - apply (context_inclusion "fix it" "Python" []). discriminate.
  - apply (context_inclusion "fix it" "" []); reflexivity.
Defined.

(** ** Role injection against the specification's ordered table *)

Lemma first_match_length table text : length (first_match table text) <= 1.
Proof.
  induction table as [|[triggers sentence] table IH]; simpl; [lia|].
  destruct (any_in triggers text); simpl; lia.
Qed.

(** a word the text has in some casing is found in the lower-cased text *)
Lemma contains_lower_cased word s l u r :
  s = l +:+ u +:+ r -> lower u = word -> contains word (lower s) = true.
Proof. intros -> <-. rewrite !lower_app. apply contains_middle. Qed.

(** C3, as stated: every engine would choose among the four trigger sets.
    The engine of [main.py] has the developer and writer branches only: a
    prompt whose first match in the table is the designer set gets no role
    there. *)
Lemma main_has_no_designer_role :
  first_match spec_roles (lower "design a ui") = ["Act as a UX/UI designer. "]
  /\ Main.add_role "design a ui" (strip "design a ui") = "design a ui"
  /\ startswith "Act as a UX/UI designer. "
       (Main.enhance_prompt_structure "design a ui" "" []) = false
  /\ startswith "Act as a UX/UI designer. design a ui"
       (AutoImprove.enhance_prompt_structure "design a ui" "" []) = true.
Proof. repeat split; reflexivity. Qed.

(** C3, amended: for every prompt the role step adds at most one sentence
    before the buffer, the one of the first trigger set in the order
    developer, writer, designer, analyst that has a word in the lower-cased,
    untrimmed prompt; [auto_improve_main.py] has the four sets, [main.py] the
    first two only. The test sees the prompt through its lower-casing alone:
    prompts with the same lower-casing get the same role, and a trigger word
    that the prompt has in any casing is found. The output of the engine
    starts with the sentence and the trimmed prompt. *)
Theorem role_first_match
    (prompt enhanced context : string) (improvements : list string) :
  let injected := first_match spec_roles (lower prompt) in
  let injected_main := first_match (take 2 spec_roles) (lower prompt) in
  length injected <= 1
  /\ length injected_main <= 1
  /\ AutoImprove.add_role prompt enhanced
     = String.concat "" injected +:+ enhanced
  /\ Main.add_role prompt enhanced
     = String.concat "" injected_main +:+ enhanced
  /\ startswith (String.concat "" injected +:+ strip prompt)
       (AutoImprove.enhance_prompt_structure prompt context improvements)
     = true
  /\ startswith (String.concat "" injected_main +:+ strip prompt)
       (Main.enhance_prompt_structure prompt context improvements) = true
  /\ (forall prompt',
        lower prompt' = lower prompt ->
        AutoImprove.add_role prompt' enhanced
        = AutoImprove.add_role prompt enhanced
        /\ Main.add_role prompt' enhanced = Main.add_role prompt enhanced)
  /\ (forall word l u r,
        In word (List.concat (map fst spec_roles)) ->
        prompt = l +:+ u +:+ r -> lower u = word ->
        contains word (lower prompt) = true).
Proof.
  intros injected injected_main.
  assert (Ha : forall e, AutoImprove.add_role prompt e
                         = String.concat "" injected +:+ e).
  { intros e. unfold AutoImprove.add_role, injected, spec_roles. simpl.
    fold AutoImprove.developer_words AutoImprove.writer_words
      AutoImprove.designer_words AutoImprove.analyst_words.
    repeat match goal with
           | |- context [if ?b then _ else _] => destruct b
           end; reflexivity. }
  assert (Hm : forall e, Main.add_role prompt e
                         = String.concat "" injected_main +:+ e).
  { intros e. unfold Main.add_role, injected_main, spec_roles. simpl.
    fold Main.developer_words Main.writer_words.
    repeat match goal with
           | |- context [if ?b then _ else _] => destruct b
           end; reflexivity. }
  repeat split; try apply first_match_length; auto.
  - rewrite <-Ha. unfold AutoImprove.enhance_prompt_structure.
    apply (startswith_extends _ _ (auto_extends_after_role context)).
  - rewrite <-Hm. unfold Main.enhance_prompt_structure.
    apply (startswith_extends _ _ (main_extends_after_role context)).
  - unfold AutoImprove.add_role. by rewrite H.
  - unfold Main.add_role. by rewrite H.
  - intros word l u r _. apply contains_lower_cased.
Qed.

Lemma role_first_match_witness :
  contains "code" (lower "Review my CODE") = true
  /\ AutoImprove.add_role "REVIEW MY CODE" "x"
     = AutoImprove.add_role "Review my CODE" "x".
Proof.
  pose proof (role_first_match "Review my CODE" "x" "" []) as H.
  cbv zeta in H. destruct H as (_ & _ & _ & _ & _ & _ & Hsame & Hfound).
  split.
  - apply (Hfound "code" "Review my " "CODE" "").
    + simpl. left. reflexivity.
    + reflexivity.
    + reflexivity.
  - apply (Hsame "REVIEW MY CODE"). reflexivity.
Defined.

(** ** The code-format checklist triggers the explanation-format checklist *)




(** ** The delivery boundary *)

Lemma get_missing (arguments : gmap string string) key :
  arguments !! key = None \/ arguments !! key = Some "" ->
  get arguments key = "".
Proof. unfold get. by intros [-> | ->]. Qed.

(** the loader leaves the log alone, and fails on an unreadable file only *)
Lemma read_improvement_prompt_cases w log :
  (exists instructions,
      read_improvement_prompt w log = (Return instructions, log))
  \/ (exists message,
        fs w !! instructions_path w = Some (Unreadable message)
        /\ read_improvement_prompt w log = (Raise (OSError message), log)).
Proof.
  unfold read_improvement_prompt, bind, sibling, path_exists, read_text, ret.
  fold (instructions_path w).
  destruct (fs w !! instructions_path w) as [[content|message]|] eqn:E.
  - left. exists content. rewrite bool_decide_eq_true_2 by eauto. by rewrite E.
  - right. exists message. rewrite bool_decide_eq_true_2 by eauto. by rewrite E.
  - left. exists default_instructions.
    rewrite bool_decide_eq_false_2; [done|]. by intros [? ?].
Qed.

Lemma improve_prompt_locally_raise enhance prompt context w log e :
  read_improvement_prompt w log = (Raise e, log) ->
  improve_prompt_locally enhance prompt context w log = (Raise e, log).
Proof. intros H. unfold improve_prompt_locally, bind. by rewrite H. Qed.

Lemma improve_prompt_locally_return enhance prompt context w log instructions :
  read_improvement_prompt w log = (Return instructions, log) ->
  exists improvements,
    improve_prompt_locally enhance prompt context w log
    = (Return (enhance prompt context improvements),
       log ++ [Call prompt context improvements]).
Proof.
  intros H. unfold improve_prompt_locally, bind. rewrite H.
  unfold engine, ret. eauto.
Qed.

(** C7: when [improvement_prompt.md] is absent from the module's directory,
    [read_improvement_prompt] returns the default sentence and raises
    nothing. *)
Theorem read_improvement_prompt_absent (w : world) (log : list call) :
  fs w !! (module_dir w +:+ "/" +:+ "improvement_prompt.md") = None ->
  read_improvement_prompt w log
  = (Return "Improve the following prompt to be clearer and more effective:",
     log).
Proof.
  intros H.
  unfold read_improvement_prompt, bind, sibling, path_exists, ret.
  rewrite bool_decide_eq_false_2; [done|].
  rewrite H. by intros [? ?].
Qed.

Lemma read_improvement_prompt_absent_witness :
  read_improvement_prompt (World "/srv/prompty" ∅) []
  = (Return "Improve the following prompt to be clearer and more effective:",
     []).
Proof.
  apply (read_improvement_prompt_absent (World "/srv/prompty" ∅) []).
  reflexivity.
Defined.

(** C6: [improve_prompt] with [user_prompt] absent or empty answers, in
    both servers, with the one text ["Error: No prompt provided to improve."];
    the log of engine calls is returned as it was, so the engine has not
    run. *)
Theorem improve_prompt_missing_input
    (arguments : gmap string string) (w : world) (log : list call) :
  arguments !! "user_prompt" = None \/ arguments !! "user_prompt" = Some "" ->
  MainServer.handle_call_tool "improve_prompt" arguments w log
  = (Return [mkTextContent "text" "Error: No prompt provided to improve."],
     log)
  /\ AutoImproveServer.handle_call_tool "improve_prompt" arguments w log
     = (Return [mkTextContent "text" "Error: No prompt provided to improve."],
        log).
Proof.
  intros H%get_missing.
  unfold MainServer.handle_call_tool, AutoImproveServer.handle_call_tool.
  simpl String.eqb. cbv iota. rewrite H. by split.
Qed.

Lemma improve_prompt_missing_input_witness :
  MainServer.handle_call_tool "improve_prompt"
    {[ "context" := "Python" ]} (World "/srv/prompty" ∅) []
  = (Return [mkTextContent "text" "Error: No prompt provided to improve."],
     [])
  /\ AutoImproveServer.handle_call_tool "improve_prompt"
       {[ "context" := "Python" ]} (World "/srv/prompty" ∅) []
     = (Return [mkTextContent "text" "Error: No prompt provided to improve."],
        []).
Proof.
  apply (improve_prompt_missing_input
           {[ "context" := "Python" ]} (World "/srv/prompty" ∅) []).
  left. reflexivity.
Defined.

(** C10: [auto_improve_all_prompts] with [user_message] absent or empty
    answers with the text ["Error: No message provided to improve."], which
    is not the text [improve_prompt] gives for a missing prompt; the log of
    engine calls is returned as it was. *)
Theorem auto_improve_missing_input
    (arguments : gmap string string) (w : world) (log : list call) :
  arguments !! "user_message" = None \/ arguments !! "user_message" = Some "" ->
  AutoImproveServer.handle_call_tool "auto_improve_all_prompts" arguments w log
  = (Return [mkTextContent "text" "Error: No message provided to improve."],
     log)
  /\ AutoImproveServer.handle_call_tool "auto_improve_all_prompts"
       arguments w log
     <> AutoImproveServer.handle_call_tool "improve_prompt" ∅ w log.
Proof.
  intros H%get_missing.
  unfold AutoImproveServer.handle_call_tool.
  simpl String.eqb. cbv iota. rewrite H. by split.
Qed.

Lemma auto_improve_missing_input_witness :
  AutoImproveServer.handle_call_tool "auto_improve_all_prompts"
    {[ "user_message" := "" ]} (World "/srv/prompty" ∅) []
  = (Return [mkTextContent "text" "Error: No message provided to improve."],
     []).
Proof.
  refine (proj1 (auto_improve_missing_input
                   {[ "user_message" := "" ]} (World "/srv/prompty" ∅) [] _)).
  right. reflexivity.
Defined.

(** ** A prompt of whitespace only *)


Lemma any_in_blank words s :
  forallb starts_word words = true -> blank s = true -> any_in words s = false.
Proof.
  intros Hw Hs. unfold any_in.
  induction words as [|[|a word] words IH]; [done..|].
  simpl in *. apply andb_true_iff in Hw as [Ha Hw].
  apply negb_true_iff in Ha. by rewrite contains_blank, IH.
Qed.

Lemma enhance_blank s improvements :
  blank s = true ->
  Main.enhance_prompt_structure s "" improvements
  = ". Please provide detailed steps and examples."
    +:+ nl +:+ nl +:+ "Ensure the response is practical and actionable.".
Proof.
  intros Hs. unfold Main.enhance_prompt_structure, Main.add_role.
  rewrite (lower_blank s), strip_blank, !any_in_blank by done.
  reflexivity.
Qed.

(** C9, as stated: for a [user_prompt] of whitespace only the engine would
    always be invoked. When [improvement_prompt.md] exists but cannot be
    read, the loader raises inside the [try] block before the engine is
    reached: the answer is the error of the read, and the log of engine calls
    is as it was. *)
Lemma blank_prompt_engine_not_reached :
  MainServer.handle_call_tool "improve_prompt"
    {[ "user_prompt" := "   " ]}
    (World "/srv/prompty"
       {[ "/srv/prompty/improvement_prompt.md" := Unreadable "denied" ]})
    []
  = (Return [mkTextContent "text" "Error improving prompt: denied"], []).
Proof. vm_compute. reflexivity. Qed.

(** C9, amended: a [user_prompt] that is not empty but all whitespace passes
    the emptiness test of [improve_prompt] in [main.py]: the answer is never
    the "no prompt" error. With an empty context the engine returns for it
    exactly [". Please provide detailed steps and examples."], an empty line
    and ["Ensure the response is practical and actionable."]; this is what
    the handler answers, after one call of the engine on that prompt, when
    the instructions file is absent or readable. When the file cannot be
    read the answer is ["Error improving prompt: "] with the error, and the
    engine has not run. *)
Theorem blank_prompt_not_rejected
    (user_prompt : string) (arguments : gmap string string) :
  user_prompt <> "" -> blank user_prompt = true ->
  arguments !! "user_prompt" = Some user_prompt ->
  get arguments "context" = "" ->
  let out := ". Please provide detailed steps and examples."
             +:+ nl +:+ nl
             +:+ "Ensure the response is practical and actionable." in
  (forall improvements,
      Main.enhance_prompt_structure user_prompt "" improvements = out)
  /\ (forall w log,
        fst (MainServer.handle_call_tool "improve_prompt" arguments w log)
        <> Return [mkTextContent "text"
                     "Error: No prompt provided to improve."])
  /\ (forall w log,
        (forall message,
            fs w !! (module_dir w +:+ "/" +:+ "improvement_prompt.md")
            <> Some (Unreadable message)) ->
        exists improvements,
          MainServer.handle_call_tool "improve_prompt" arguments w log
          = (Return [mkTextContent "text" out],
             log ++ [Call user_prompt "" improvements]))
  /\ (forall w log message,
        fs w !! (module_dir w +:+ "/" +:+ "improvement_prompt.md")
        = Some (Unreadable message) ->
        MainServer.handle_call_tool "improve_prompt" arguments w log
        = (Return
             [mkTextContent "text" ("Error improving prompt: " +:+ message)],
           log)).
Proof.
  intros Hne Hblank Hget Hctx out.
  assert (Hrun : forall w log,
    MainServer.handle_call_tool "improve_prompt" arguments w log
    = try_except
        (improved_prompt <-
           improve_prompt_locally Main.enhance_prompt_structure
             user_prompt "" ;;
         ret [mkTextContent "text" improved_prompt])
        (fun e =>
           ret [mkTextContent "text" ("Error improving prompt: " +:+ str e)])
        w log).
  { intros w log. unfold MainServer.handle_call_tool.
    rewrite Hctx. unfold get. rewrite Hget.
    change (default "" (Some user_prompt)) with user_prompt.
    by rewrite (truthy_nonempty _ Hne). }
  split; [|split; [|split]].
  - intros improvements. by apply enhance_blank.
  - intros w log. rewrite Hrun. unfold try_except, bind.
    destruct (read_improvement_prompt_cases w log)
      as [[instructions Hr]|(message & _ & Hr)].
    + destruct (improve_prompt_locally_return Main.enhance_prompt_structure
                  user_prompt "" w log instructions Hr) as [imps ->].
      unfold ret. simpl. rewrite enhance_blank by done. discriminate.
    + rewrite (improve_prompt_locally_raise _ _ _ _ _ _ Hr).
      unfold ret. simpl. by intros [=].
  - intros w log Hfs. rewrite Hrun. unfold try_except, bind.
    destruct (read_improvement_prompt_cases w log)
      as [[instructions Hr]|(message & Hm & _)].
    + destruct (improve_prompt_locally_return Main.enhance_prompt_structure
                  user_prompt "" w log instructions Hr) as [imps ->].
      exists imps. unfold ret. by rewrite enhance_blank.
    + by destruct (Hfs message).
  - intros w log message Hm. rewrite Hrun. unfold try_except, bind.
    destruct (read_improvement_prompt_cases w log)
      as [[instructions Hr]|(message' & Hm' & Hr)].
    + exfalso. revert Hr.
      unfold read_improvement_prompt, bind, sibling, path_exists, read_text,
        ret.
      rewrite bool_decide_eq_true_2 by (rewrite Hm; eauto).
      by rewrite Hm.
    + unfold instructions_path in Hm'. rewrite Hm in Hm'.
      injection Hm' as <-.
      by rewrite (improve_prompt_locally_raise _ _ _ _ _ _ Hr).
Qed.

Lemma blank_prompt_not_rejected_witness :
  Main.enhance_prompt_structure "   " "" []
  = ". Please provide detailed steps and examples."
    +:+ nl +:+ nl +:+ "Ensure the response is practical and actionable."
  /\ fst (MainServer.handle_call_tool "improve_prompt"
            {[ "user_prompt" := "   " ]} (World "/srv/prompty" ∅) [])
     <> Return [mkTextContent "text" "Error: No prompt provided to improve."]
  /\ (exists improvements,
        MainServer.handle_call_tool "improve_prompt"
          {[ "user_prompt" := "   " ]} (World "/srv/prompty" ∅) []
        = (Return
             [mkTextContent "text"
                (". Please provide detailed steps and examples."
                 +:+ nl +:+ nl
                 +:+ "Ensure the response is practical and actionable.")],
           [] ++ [Call "   " "" improvements]))
  /\ MainServer.handle_call_tool "improve_prompt"
       {[ "user_prompt" := "   " ]}
       (World "/srv/prompty"
          {[ "/srv/prompty/improvement_prompt.md" := Unreadable "denied" ]})
       []
     = (Return [mkTextContent "text" ("Error improving prompt: " +:+ "denied")],
        []).
Proof.
  assert (H : "   " <> "" /\ blank "   " = true
              /\ ({[ "user_prompt" := "   " ]} : gmap string string)
                   !! "user_prompt" = Some "   "
              /\ get ({[ "user_prompt" := "   " ]} : gmap string string)
                   "context" = "").
  { repeat split; [discriminate|reflexivity..]. }
  destruct H as (H1 & H2 & H3 & H4).
  pose proof (blank_prompt_not_rejected "   " _ H1 H2 H3 H4) as H.
  cbv zeta in H. destruct H as (Hout & Hpass & Hrun & Hfail).
  split; [apply Hout|]. split; [apply Hpass|]. split.
  - apply (Hrun (World "/srv/prompty" ∅) []).
    intros message E. vm_compute in E. discriminate E.
  - apply (Hfail (World "/srv/prompty"
                    {[ "/srv/prompty/improvement_prompt.md"
                       := Unreadable "denied" ]}) [] "denied").
    reflexivity.
Defined.

(** ** Whitespace around the prompt *)

Lemma rstrip_empty s : rstrip s = "" -> blank s = true.
Proof.
  induction s as [|c s IH]; [done|]. simpl.
  destruct (rstrip s) as [|b r]; [|done].
  destruct (isspace c); [auto|done].
Qed.

Lemma lstrip_blank_prefix s : exists l, blank l = true /\ s = l +:+ lstrip s.
Proof.
  induction s as [|c s (l & Hb & Hl)]; [by exists ""|]. simpl.
  destruct (isspace c) eqn:Hc; [|by exists ""].
  exists (String c l). simpl. rewrite Hc, Hb, app_cons, <-Hl. done.
Qed.

Lemma rstrip_blank_suffix s : exists r, blank r = true /\ s = rstrip s +:+ r.
Proof.
  induction s as [|c s (r & Hb & Hr)]; [by exists ""|]. simpl.
  destruct (rstrip s) as [|b s'] eqn:E.
  - destruct (isspace c) eqn:Hc.
    + exists (String c s). simpl. by rewrite Hc, (rstrip_empty s E).
    + exists r. by rewrite app_cons, <-Hr.
  - exists r. by rewrite app_cons, <-Hr.
Qed.

Lemma strip_blank_ends s :
  exists l r, blank l = true /\ blank r = true /\ s = l +:+ strip s +:+ r.
Proof.
  destruct (lstrip_blank_prefix s) as (l & Hl & Hs).
  destruct (rstrip_blank_suffix (lstrip s)) as (r & Hr & Hm).
  exists l, r. unfold strip. by rewrite <-Hm.
Qed.

Lemma lstrip_starts s : lstrip s = "" \/ starts_word (lstrip s) = true.
Proof.
  induction s as [|c s IH]; [by left|]. simpl.
  destruct (isspace c) eqn:Hc; [done|]. right. simpl. by rewrite Hc.
Qed.

Lemma lstrip_id s : starts_word s = true -> lstrip s = s.
Proof.
  destruct s as [|c s]; [done|]. simpl.
  by intros ->%negb_true_iff.
Qed.

Lemma rstrip_starts s : starts_word s = true -> starts_word (rstrip s) = true.
Proof.
  destruct s as [|c s]; [done|]. simpl. intros Hc.
  destruct (rstrip s); [|done].
  apply negb_true_iff in Hc. by rewrite Hc; simpl; rewrite Hc.
Qed.

Lemma rstrip_idem s : rstrip (rstrip s) = rstrip s.
Proof.
  induction s as [|c s IH]; [done|]. simpl.
  destruct (rstrip s) as [|b r] eqn:E.
  - destruct (isspace c) eqn:Hc; [done|]. simpl. by rewrite Hc.
  - change (rstrip (String c (String b r))) with
      (match rstrip (String b r) with
       | "" => if isspace c then "" else String c ""
       | x => String c x
       end).
    by rewrite IH.
Qed.

Lemma strip_idem s : strip (strip s) = strip s.
Proof.
  unfold strip. destruct (lstrip_starts s) as [->|H]; [done|].
  by rewrite (lstrip_id _ (rstrip_starts _ H)), rstrip_idem.
Qed.

Lemma lacks_nospace c word :
  isspace c = true -> nospace word = true -> lacks c word.
Proof.
  intros Hc. induction word as [|a word IH]; [done|]. simpl.
  intros [Ha Hw]%andb_true_iff. apply lacks_cons. split; [|auto].
  intros ->. by rewrite Hc in Ha.
Qed.

Lemma contains_blank_l word l s :
  solid word = true -> blank l = true ->
  contains word (l +:+ s) = contains word s.
Proof.
  intros [Hs Hn]%andb_true_iff. induction l as [|c l IH]; [done|].
  intros Hb. simpl in Hb. apply andb_true_iff in Hb as [Hc Hl].
  rewrite app_cons, <-(app_nil_l (String c (l +:+ s))).
  rewrite contains_sep by by apply lacks_nospace.
  rewrite IH by done. by destruct word.
Qed.

Lemma contains_blank_r word s r :
  solid word = true -> blank r = true ->
  contains word (s +:+ r) = contains word s.
Proof.
  intros [Hs Hn]%andb_true_iff. destruct r as [|c r]; [by rewrite app_nil_r|].
  intros Hb. simpl in Hb. apply andb_true_iff in Hb as [Hc Hr].
  rewrite contains_sep by by apply lacks_nospace.
  destruct word as [|a word]; [done|].
  simpl in Hs. apply negb_true_iff in Hs.
  by rewrite (contains_blank a word r), orb_false_r.
Qed.

Lemma contains_lower_strip word s :
  solid word = true ->
  contains word (lower (strip s)) = contains word (lower s).
Proof.
  intros Hw. destruct (strip_blank_ends s) as (l & r & Hl & Hr & Hs).
  remember (strip s) as m. rewrite Hs, !lower_app.
  rewrite (lower_blank l), (lower_blank r) by done.
  by rewrite contains_blank_l, contains_blank_r.
Qed.

Lemma any_in_lower_strip words s :
  forallb solid words = true ->
  any_in words (lower (strip s)) = any_in words (lower s).
Proof.
  unfold any_in. induction words as [|word words IH]; [done|]. simpl.
  intros [Hw Hws]%andb_true_iff. by rewrite contains_lower_strip, IH.
Qed.

(** X1: white space before and after the prompt never changes the answer of
    either engine: the prompt and the trimmed prompt give the same output. *)
Theorem trim_invariance (prompt context : string) (improvements : list string) :
  Main.enhance_prompt_structure prompt context improvements
  = Main.enhance_prompt_structure (strip prompt) context improvements
  /\ AutoImprove.enhance_prompt_structure prompt context improvements
     = AutoImprove.enhance_prompt_structure (strip prompt) context improvements.
Proof.
  unfold Main.enhance_prompt_structure, AutoImprove.enhance_prompt_structure,
    Main.add_role, AutoImprove.add_role.
  by rewrite strip_idem, !any_in_lower_strip.
Qed.

(** ** How much text the engine adds *)

Lemma strlen_app s t :
  String.length (s +:+ t) = String.length s + String.length t.
Proof.
  induction s as [|a s IH]; [done|]. rewrite app_cons. simpl. by rewrite IH.
Qed.

Ltac strlen_consts :=
  rewrite ?strlen_app;
  change (String.length nl) with 1;
  change (String.length "Context: ") with 9;
  change (String.length "") with 0;
  change (String.length Main.developer_role) with 37;
  change (String.length Main.writer_role) with 27;
  change (String.length Main.specificity) with 45;
  change (String.length Main.code_format) with 105;
  change (String.length Main.closing) with 48;
  change (String.length AutoImprove.developer_role) with 37;
  change (String.length AutoImprove.writer_role) with 27;
  change (String.length AutoImprove.designer_role) with 25;
  change (String.length AutoImprove.analyst_role) with 23;
  change (String.length AutoImprove.specificity) with 60;
  change (String.length AutoImprove.code_format) with 141;
  change (String.length AutoImprove.explain_format) with 131;
  change (String.length AutoImprove.closing) with 69.

Ltac split_ifs :=
  repeat match goal with
         | |- context [if ?b then _ else _] => destruct b
         end.

Lemma main_enhance_length prompt context improvements :
  let n := String.length
             (Main.enhance_prompt_structure prompt context improvements) in
  String.length (strip prompt) + String.length context + 50 <= n
  /\ n <= String.length (strip prompt) + String.length context + 248.
Proof.
  unfold Main.enhance_prompt_structure, Main.add_constraints,
    Main.add_code_format, Main.add_context, Main.add_specificity,
    Main.add_role.
  destruct context as [|a context].
  - change (truthy "") with false. cbv iota zeta.
    split_ifs; strlen_consts; lia.
  - change (truthy (String a context)) with true. cbv iota zeta.
    split_ifs; strlen_consts;
      change (String.length (String a context))
        with (S (String.length context)); lia.
Qed.

Lemma auto_enhance_length prompt context improvements :
  let n := String.length
             (AutoImprove.enhance_prompt_structure prompt context improvements) in
  String.length (strip prompt) + String.length context + 71 <= n
  /\ n <= String.length (strip prompt) + String.length context + 451.
Proof.
  unfold AutoImprove.enhance_prompt_structure, AutoImprove.add_constraints,
    AutoImprove.add_explain_format, AutoImprove.add_code_format,
    AutoImprove.add_context, AutoImprove.add_specificity,
    AutoImprove.add_role.
  destruct context as [|a context].
  - change (truthy "") with false. cbv iota zeta.
    split_ifs; strlen_consts; lia.
  - change (truthy (String a context)) with true. cbv iota zeta.
    split_ifs; strlen_consts;
      change (String.length (String a context))
        with (S (String.length context)); lia.
Qed.

(** X2: the output is the trimmed prompt and the context plus a bounded
    amount of fixed text: between 50 and 248 characters more in [main.py],
    between 71 and 451 more in [auto_improve_main.py]; both ends are
    reached. *)
Theorem enhance_length_bounds
    (prompt context : string) (improvements : list string) :
  let base := String.length (strip prompt) + String.length context in
  (base + 50
   <= String.length (Main.enhance_prompt_structure prompt context improvements)
   <= base + 248)
  /\ (base + 71
      <= String.length
           (AutoImprove.enhance_prompt_structure prompt context improvements)
      <= base + 451)
  /\ String.length
       (Main.enhance_prompt_structure "a b c d e f g h i j" "" []) = 19 + 50
  /\ String.length (Main.enhance_prompt_structure "code" "x" []) = 5 + 248
  /\ String.length
       (AutoImprove.enhance_prompt_structure "a b c d e f g h i j" "" [])
     = 19 + 71
  /\ String.length (AutoImprove.enhance_prompt_structure "code" "x" [])
     = 5 + 451.
Proof.
  intros base. repeat split; try reflexivity.
  - apply main_enhance_length.
  - apply main_enhance_length.
  - apply auto_enhance_length.
  - apply auto_enhance_length.
Qed.

(** ** The output fed back to the engine *)

Lemma rstrip_snoc s z :
  isspace z = false -> rstrip (s +:+ String z "") = s +:+ String z "".
Proof.
  intros Hz. induction s as [|c s IH].
  - rewrite app_nil_l. simpl. by rewrite Hz.
  - rewrite app_cons. simpl. rewrite IH. by destruct s.
Qed.

Lemma strip_fixed s init z :
  starts_word s = true -> s = init +:+ String z "" -> isspace z = false ->
  strip s = s.
Proof.
  intros Hs -> Hz. unfold strip. by rewrite lstrip_id, rstrip_snoc.
Qed.

Lemma strip_starts s : strip s = "" \/ starts_word (strip s) = true.
Proof.
  unfold strip. destruct (lstrip_starts s) as [->|H]; [by left|].
  right. by apply rstrip_starts.
Qed.

Lemma starts_word_app s t :
  starts_word s = true -> starts_word (s +:+ t) = true.
Proof. by destruct s. Qed.

Lemma starts_word_extends stage e :
  extends stage -> starts_word e = true -> starts_word (stage e) = true.
Proof. intros H He. destruct (H e) as [t ->]. by apply starts_word_app. Qed.

Lemma main_enhance_starts prompt context improvements :
  starts_word (Main.enhance_prompt_structure prompt context improvements)
  = true.
Proof.
  unfold Main.enhance_prompt_structure.
  apply (starts_word_extends Main.add_constraints),
        (starts_word_extends Main.add_code_format),
        (starts_word_extends (Main.add_context context));
    auto using main_extends_constraints, main_extends_code_format,
      main_extends_context.
  unfold Main.add_role.
  destruct (any_in Main.developer_words (lower prompt));
    [by apply (starts_word_extends _ _ main_extends_specificity)|].
  destruct (any_in Main.writer_words (lower prompt));
    [by apply (starts_word_extends _ _ main_extends_specificity)|].
  destruct (strip_starts prompt) as [->|H]; [done|].
  by apply (starts_word_extends _ _ main_extends_specificity).
Qed.

Lemma auto_enhance_starts prompt context improvements :
  starts_word
    (AutoImprove.enhance_prompt_structure prompt context improvements) = true.
Proof.
  unfold AutoImprove.enhance_prompt_structure.
  apply (starts_word_extends AutoImprove.add_constraints),
        (starts_word_extends AutoImprove.add_explain_format),
        (starts_word_extends AutoImprove.add_code_format),
        (starts_word_extends (AutoImprove.add_context context));
    auto using auto_extends_constraints, auto_extends_explain_format,
      auto_extends_code_format, auto_extends_context.
  unfold AutoImprove.add_role.
  destruct (any_in AutoImprove.developer_words (lower prompt));
    [by apply (starts_word_extends _ _ auto_extends_specificity)|].
  destruct (any_in AutoImprove.writer_words (lower prompt));
    [by apply (starts_word_extends _ _ auto_extends_specificity)|].
  destruct (any_in AutoImprove.designer_words (lower prompt));
    [by apply (starts_word_extends _ _ auto_extends_specificity)|].
  destruct (any_in AutoImprove.analyst_words (lower prompt));
    [by apply (starts_word_extends _ _ auto_extends_specificity)|].
  destruct (strip_starts prompt) as [->|H]; [done|].
  by apply (starts_word_extends _ _ auto_extends_specificity).
Qed.

Lemma main_enhance_trimmed prompt context improvements :
  strip (Main.enhance_prompt_structure prompt context improvements)
  = Main.enhance_prompt_structure prompt context improvements.
Proof.
  apply (strip_fixed _
           (Main.add_code_format
              (Main.add_context context
                 (Main.add_specificity (Main.add_role prompt (strip prompt))))
            +:+ nl +:+ nl
            +:+ "Ensure the response is practical and actionable") ".");
    [apply main_enhance_starts| |done].
  unfold Main.enhance_prompt_structure, Main.add_constraints.
  by rewrite !app_assoc.
Qed.

Lemma auto_enhance_trimmed prompt context improvements :
  strip (AutoImprove.enhance_prompt_structure prompt context improvements)
  = AutoImprove.enhance_prompt_structure prompt context improvements.
Proof.
  apply (strip_fixed _
           (AutoImprove.add_explain_format
              (AutoImprove.add_code_format
                 (AutoImprove.add_context context
                    (AutoImprove.add_specificity
                       (AutoImprove.add_role prompt (strip prompt)))))
            +:+ nl +:+ nl
            +:+ "Ensure the response is practical, actionable, and easy to understand")
           ".");
    [apply auto_enhance_starts| |done].
  unfold AutoImprove.enhance_prompt_structure, AutoImprove.add_constraints.
  by rewrite !app_assoc.
Qed.

(** X3: the output of either engine has no white space at its ends, and
    given back to the engine as a prompt it comes out longer by at least the
    new context and 50 characters ([main.py]) or 71
    ([auto_improve_main.py]): the engine is not idempotent and has no fixed
    point. *)
Theorem enhance_again_grows
    (prompt context context' : string) (improvements improvements' : list string) :
  let once := Main.enhance_prompt_structure prompt context improvements in
  let once_auto :=
    AutoImprove.enhance_prompt_structure prompt context improvements in
  strip once = once
  /\ strip once_auto = once_auto
  /\ String.length once + String.length context' + 50
     <= String.length (Main.enhance_prompt_structure once context' improvements')
  /\ String.length once_auto + String.length context' + 71
     <= String.length
          (AutoImprove.enhance_prompt_structure once_auto context' improvements')
  /\ Main.enhance_prompt_structure once context' improvements' <> once
  /\ AutoImprove.enhance_prompt_structure once_auto context' improvements'
     <> once_auto.
Proof.
  intros once once_auto.
  pose proof (main_enhance_trimmed prompt context improvements) as Hm.
  pose proof (auto_enhance_trimmed prompt context improvements) as Ha.
  pose proof (main_enhance_length once context' improvements') as [Lm _].
  pose proof (auto_enhance_length once_auto context' improvements') as [La _].
  fold once in Hm. fold once_auto in Ha. rewrite Hm in Lm. rewrite Ha in La.
  repeat split; try done.
  - intros E. rewrite E in Lm. lia.
  - intros E. rewrite E in La. lia.
Qed.

(** ** What makes the code checklist appear *)








(** ** Word counts and the specificity sentence *)













(** ** The tool handlers, case by case *)

Lemma instructions_cases w :
  instructions_ok w
  \/ exists message, fs w !! instructions_path w = Some (Unreadable message).
Proof.
  destruct (fs w !! instructions_path w) as [[content|message]|] eqn:E.
  - left. intros m. by rewrite E.
  - right. by exists message.
  - left. intros m. by rewrite E.
Qed.

Lemma read_improvement_prompt_ok w log :
  instructions_ok w ->
  exists instructions,
    read_improvement_prompt w log = (Return instructions, log).
Proof.
  intros Hok.
  destruct (read_improvement_prompt_cases w log) as [H|(m & Hm & _)]; [done|].
  by destruct (Hok m).
Qed.

Lemma read_improvement_prompt_unreadable w log message :
  fs w !! instructions_path w = Some (Unreadable message) ->
  read_improvement_prompt w log = (Raise (OSError message), log).
Proof.
  intros Hm.
  unfold read_improvement_prompt, bind, sibling, path_exists, read_text, ret.
  fold (instructions_path w).
  rewrite bool_decide_eq_true_2 by (rewrite Hm; eauto).
  by rewrite Hm.
Qed.

(** what [improve_prompt_locally] does once the instructions are read does
    not depend on them, nor on the file system *)
Lemma improve_prompt_locally_any_world enhance prompt context w w' log :
  instructions_ok w -> instructions_ok w' ->
  improve_prompt_locally enhance prompt context w log
  = improve_prompt_locally enhance prompt context w' log.
Proof.
  intros [i Hi]%(read_improvement_prompt_ok w log)
         [i' Hi']%(read_improvement_prompt_ok w' log).
  unfold improve_prompt_locally, bind. by rewrite Hi, Hi'.
Qed.

(** the [try] block of a handler: [wrap] builds the payload on success,
    [prefix] starts the payload on failure *)
Lemma try_block_ok enhance prompt context wrap prefix w log :
  instructions_ok w ->
  exists improvements,
    try_except
      (improved <- improve_prompt_locally enhance prompt context ;;
       ret [mkTextContent "text" (wrap improved)])
      (fun e => ret [mkTextContent "text" (prefix +:+ str e)]) w log
    = (Return
         [mkTextContent "text" (wrap (enhance prompt context improvements))],
       log ++ [Call prompt context improvements]).
Proof.
  intros [i Hi]%(read_improvement_prompt_ok w log).
  destruct (improve_prompt_locally_return enhance prompt context w log i Hi)
    as [imps H].
  exists imps. unfold try_except, bind. by rewrite H.
Qed.

Lemma try_block_unreadable enhance prompt context wrap prefix w log message :
  fs w !! instructions_path w = Some (Unreadable message) ->
  try_except
    (improved <- improve_prompt_locally enhance prompt context ;;
     ret [mkTextContent "text" (wrap improved)])
    (fun e => ret [mkTextContent "text" (prefix +:+ str e)]) w log
  = (Return [mkTextContent "text" (prefix +:+ message)], log).
Proof.
  intros Hm%(read_improvement_prompt_unreadable w log).
  unfold try_except, bind.
  by rewrite (improve_prompt_locally_raise _ _ _ _ _ _ Hm).
Qed.

Lemma truthy_true s : truthy s = true <-> s <> "".
Proof. unfold truthy. by rewrite negb_true_iff, String.eqb_neq. Qed.

(** the three branches of [handle_call_tool] in [main.py] *)
Lemma main_handler_unknown name arguments :
  name <> "improve_prompt" ->
  MainServer.handle_call_tool name arguments
  = raise (ValueError ("Unknown tool: " +:+ name)).
Proof.
  intros H%String.eqb_neq. unfold MainServer.handle_call_tool. by rewrite H.
Qed.

Lemma main_handler_run arguments :
  get arguments "user_prompt" <> "" ->
  MainServer.handle_call_tool "improve_prompt" arguments
  = try_except
      (improved <-
         improve_prompt_locally Main.enhance_prompt_structure
           (get arguments "user_prompt") (get arguments "context") ;;
       ret [mkTextContent "text" ((fun x => x) improved)])
      (fun e =>
         ret [mkTextContent "text" ("Error improving prompt: " +:+ str e)]).
Proof.
  intros H%truthy_true. unfold MainServer.handle_call_tool.
  change ("improve_prompt" =? "improve_prompt") with true. cbv iota.
  change (negb true) with false. cbv iota. by rewrite H.
Qed.

(** the branches of [handle_call_tool] in [auto_improve_main.py] *)
Lemma auto_handler_unknown name arguments :
  name <> "improve_prompt" -> name <> "auto_improve_all_prompts" ->
  AutoImproveServer.handle_call_tool name arguments
  = raise (ValueError ("Unknown tool: " +:+ name)).
Proof.
  intros H1%String.eqb_neq H2%String.eqb_neq.
  unfold AutoImproveServer.handle_call_tool. by rewrite H1, H2.
Qed.

Lemma auto_handler_run arguments :
  get arguments "user_prompt" <> "" ->
  AutoImproveServer.handle_call_tool "improve_prompt" arguments
  = try_except
      (improved <-
         improve_prompt_locally AutoImprove.enhance_prompt_structure
           (get arguments "user_prompt") (get arguments "context") ;;
       ret [mkTextContent "text" ((fun x => x) improved)])
      (fun e =>
         ret [mkTextContent "text" ("Error improving prompt: " +:+ str e)]).
Proof.
  intros H%truthy_true. unfold AutoImproveServer.handle_call_tool.
  change ("improve_prompt" =? "improve_prompt") with true. cbv iota.
  by rewrite H.
Qed.

Lemma auto_handler_run_all arguments :
  get arguments "user_message" <> "" ->
  AutoImproveServer.handle_call_tool "auto_improve_all_prompts" arguments
  = try_except
      (improved <-
         improve_prompt_locally AutoImprove.enhance_prompt_structure
           (get arguments "user_message") "" ;;
       ret [mkTextContent "text"
              (composite (get arguments "user_message") improved)])
      (fun e =>
         ret [mkTextContent "text" ("Error improving message: " +:+ str e)]).
Proof.
  intros H%truthy_true. unfold AutoImproveServer.handle_call_tool.
  change ("auto_improve_all_prompts" =? "improve_prompt") with false.
  change ("auto_improve_all_prompts" =? "auto_improve_all_prompts") with true.
  cbv iota. by rewrite H.
Qed.

Lemma main_improve_returns arguments w log :
  exists payload log',
    MainServer.handle_call_tool "improve_prompt" arguments w log
    = (Return [mkTextContent "text" payload], log')
    /\ (log' = log \/ exists c, log' = log ++ [c]).
Proof.
  destruct (decide (get arguments "user_prompt" = "")) as [E|N].
  - unfold MainServer.handle_call_tool. rewrite E. eexists _, log. by split; [|left].
  - rewrite main_handler_run by done.
    destruct (instructions_cases w) as [Hok|[m Hm]].
    + destruct (try_block_ok Main.enhance_prompt_structure
                  (get arguments "user_prompt") (get arguments "context")
                  (fun x => x) "Error improving prompt: " w log Hok)
        as [imps ->].
      eexists _, _. split; [done|]. right. eauto.
    + rewrite (try_block_unreadable _ _ _ _ _ _ _ _ Hm).
      eexists _, _. split; [done|]. by left.
Qed.

Lemma auto_improve_returns arguments w log :
  exists payload log',
    AutoImproveServer.handle_call_tool "improve_prompt" arguments w log
    = (Return [mkTextContent "text" payload], log')
    /\ (log' = log \/ exists c, log' = log ++ [c]).
Proof.
  destruct (decide (get arguments "user_prompt" = "")) as [E|N].
  - unfold AutoImproveServer.handle_call_tool. rewrite E.
    eexists _, log. by split; [|left].
  - rewrite auto_handler_run by done.
    destruct (instructions_cases w) as [Hok|[m Hm]].
    + destruct (try_block_ok AutoImprove.enhance_prompt_structure
                  (get arguments "user_prompt") (get arguments "context")
                  (fun x => x) "Error improving prompt: " w log Hok)
        as [imps ->].
      eexists _, _. split; [done|]. right. eauto.
    + rewrite (try_block_unreadable _ _ _ _ _ _ _ _ Hm).
      eexists _, _. split; [done|]. by left.
Qed.

Lemma auto_improve_all_returns arguments w log :
  exists payload log',
    AutoImproveServer.handle_call_tool "auto_improve_all_prompts"
      arguments w log
    = (Return [mkTextContent "text" payload], log')
    /\ (log' = log \/ exists c, log' = log ++ [c]).
Proof.
  destruct (decide (get arguments "user_message" = "")) as [E|N].
  - unfold AutoImproveServer.handle_call_tool. rewrite E.
    eexists _, log. by split; [|left].
  - rewrite auto_handler_run_all by done.
    destruct (instructions_cases w) as [Hok|[m Hm]].
    + destruct (try_block_ok AutoImprove.enhance_prompt_structure
                  (get arguments "user_message") ""
                  (composite (get arguments "user_message"))
                  "Error improving message: " w log Hok)
        as [imps ->].
      eexists _, _. split; [done|]. right. eauto.
    + rewrite (try_block_unreadable _ _ _ _ _ _ _ _ Hm).
      eexists _, _. split; [done|]. by left.
Qed.

(** X6: a tool call raises exactly for the names [handle_list_tools] does
    not advertise, and then it is [ValueError] with the text
    ["Unknown tool: " + name], before any call of the engine; this holds in
    [main.py] and in [auto_improve_main.py]. *)
Theorem unknown_tool_iff_unlisted
    (name : string) (arguments : gmap string string)
    (w : world) (log : list call) :
  (~ In name (tool_names MainTools.handle_list_tools)
   <-> MainServer.handle_call_tool name arguments w log
       = (Raise (ValueError ("Unknown tool: " +:+ name)), log))
  /\ (~ In name (tool_names AutoImproveTools.handle_list_tools)
      <-> AutoImproveServer.handle_call_tool name arguments w log
          = (Raise (ValueError ("Unknown tool: " +:+ name)), log)).
Proof.
  split; split.
  - intros H. rewrite main_handler_unknown; [done|].
    intros ->. apply H. by left.
  - intros Hr Hin. simpl in Hin. destruct Hin as [<-|[]].
    destruct (main_improve_returns arguments w log) as (t & l & E & _).
    rewrite E in Hr. discriminate.
  - intros H. rewrite auto_handler_unknown; [done|..].
    + intros ->. apply H. by left.
    + intros ->. apply H. right. by left.
  - intros Hr Hin. simpl in Hin. destruct Hin as [<-|[<-|[]]].
    + destruct (auto_improve_returns arguments w log) as (t & l & E & _).
      rewrite E in Hr. discriminate.
    + destruct (auto_improve_all_returns arguments w log) as (t & l & E & _).
      rewrite E in Hr. discriminate.
Qed.

(** X7: for an advertised tool, whatever the arguments and the file system,
    the handler raises nothing: it answers with exactly one content item of
    type ["text"], and the engine has run at most once. *)
Theorem listed_tool_answers_text
    (name : string) (arguments : gmap string string)
    (w : world) (log : list call) :
  (In name (tool_names MainTools.handle_list_tools) ->
   exists payload log',
     MainServer.handle_call_tool name arguments w log
     = (Return [mkTextContent "text" payload], log')
     /\ (log' = log \/ exists c, log' = log ++ [c]))
  /\ (In name (tool_names AutoImproveTools.handle_list_tools) ->
      exists payload log',
        AutoImproveServer.handle_call_tool name arguments w log
        = (Return [mkTextContent "text" payload], log')
        /\ (log' = log \/ exists c, log' = log ++ [c])).
Proof.
  split.
  - intros Hin. simpl in Hin. destruct Hin as [<-|[]].
    apply main_improve_returns.
  - intros Hin. simpl in Hin. destruct Hin as [<-|[<-|[]]];
      [apply auto_improve_returns|apply auto_improve_all_returns].
Qed.

Lemma listed_tool_answers_text_witness :
  exists payload log',
    AutoImproveServer.handle_call_tool "auto_improve_all_prompts"
      {[ "user_message" := "fix my code" ]}
      (World "/srv/prompty"
         {[ "/srv/prompty/improvement_prompt.md" := Unreadable "denied" ]})
      []
    = (Return [mkTextContent "text" payload], log')
    /\ (log' = [] \/ exists c, log' = [] ++ [c]).
Proof.
  refine (proj2 (listed_tool_answers_text "auto_improve_all_prompts"
                   {[ "user_message" := "fix my code" ]}
                   (World "/srv/prompty"
                      {[ "/srv/prompty/improvement_prompt.md"
                         := Unreadable "denied" ]})
                   []) _).
  simpl. right. left. reflexivity.
Defined.

(** X8: when [improvement_prompt.md] exists but cannot be read, a call with
    a non-empty prompt is answered with the error of the read, prefixed
    ["Error improving prompt: "] by [improve_prompt] and
    ["Error improving message: "] by [auto_improve_all_prompts]; the engine
    has not run. *)
Theorem unreadable_instructions_reported
    (arguments : gmap string string) (w : world) (log : list call)
    (message : string) :
  fs w !! instructions_path w = Some (Unreadable message) ->
  (get arguments "user_prompt" <> "" ->
   MainServer.handle_call_tool "improve_prompt" arguments w log
   = (Return [mkTextContent "text" ("Error improving prompt: " +:+ message)],
      log)
   /\ AutoImproveServer.handle_call_tool "improve_prompt" arguments w log
      = (Return
           [mkTextContent "text" ("Error improving prompt: " +:+ message)],
         log))
  /\ (get arguments "user_message" <> "" ->
      AutoImproveServer.handle_call_tool "auto_improve_all_prompts"
        arguments w log
      = (Return
           [mkTextContent "text" ("Error improving message: " +:+ message)],
         log)).
Proof.
  intros Hm. split.
  - intros Hp. rewrite main_handler_run, auto_handler_run by done.
    by rewrite !(try_block_unreadable _ _ _ _ _ _ _ _ Hm).
  - intros Hp. rewrite auto_handler_run_all by done.
    by rewrite (try_block_unreadable _ _ _ _ _ _ _ _ Hm).
Qed.

Lemma unreadable_instructions_reported_witness :
  MainServer.handle_call_tool "improve_prompt"
    {[ "user_prompt" := "fix my code" ]}
    (World "/srv/prompty"
       {[ "/srv/prompty/improvement_prompt.md"
          := Unreadable "Permission denied" ]})
    []
  = (Return
       [mkTextContent "text" "Error improving prompt: Permission denied"],
     []).
Proof.
  refine (proj1 (proj1 (unreadable_instructions_reported
                          {[ "user_prompt" := "fix my code" ]}
                          (World "/srv/prompty"
                             {[ "/srv/prompty/improvement_prompt.md"
                                := Unreadable "Permission denied" ]})
                          [] "Permission denied" _) _)).
  - reflexivity.
  - vm_compute. discriminate.
Defined.

(** X9: the text of [improvement_prompt.md] is read and dropped: any two
    file systems in which the file is absent or readable give the same
    answer and the same engine calls, for every tool name and arguments, in
    both servers. *)
Theorem instructions_text_ignored
    (name : string) (arguments : gmap string string)
    (w w' : world) (log : list call) :
  instructions_ok w -> instructions_ok w' ->
  MainServer.handle_call_tool name arguments w log
  = MainServer.handle_call_tool name arguments w' log
  /\ AutoImproveServer.handle_call_tool name arguments w log
     = AutoImproveServer.handle_call_tool name arguments w' log.
Proof.
  intros Hw Hw'.
  unfold MainServer.handle_call_tool, AutoImproveServer.handle_call_tool.
  split; split_ifs; try reflexivity;
    unfold try_except, bind;
    by rewrite (improve_prompt_locally_any_world _ _ _ w w' log Hw Hw').
Qed.

Lemma instructions_text_ignored_witness :
  MainServer.handle_call_tool "improve_prompt"
    {[ "user_prompt" := "fix my code" ]}
    (World "/srv/prompty"
       {[ "/srv/prompty/improvement_prompt.md" := Readable "Be brief." ]})
    []
  = MainServer.handle_call_tool "improve_prompt"
      {[ "user_prompt" := "fix my code" ]} (World "/opt/other" ∅) [].
Proof.
  refine (proj1 (instructions_text_ignored "improve_prompt"
                   {[ "user_prompt" := "fix my code" ]}
                   (World "/srv/prompty"
                      {[ "/srv/prompty/improvement_prompt.md"
                         := Readable "Be brief." ]})
                   (World "/opt/other" ∅) [] _ _)).
  - intros m H. vm_compute in H. discriminate H.
  - intros m H. vm_compute in H. discriminate H.
Defined.

(** X10: with a non-empty [user_prompt] and the instructions file absent or
    readable, [improve_prompt] answers with the output of the engine on the
    prompt and the context exactly as given (the context [""] when absent),
    and the engine has run once, on these. *)
Theorem improve_prompt_answers_with_engine
    (arguments : gmap string string) (w : world) (log : list call) :
  instructions_ok w -> get arguments "user_prompt" <> "" ->
  let user_prompt := get arguments "user_prompt" in
  let context := get arguments "context" in
  (exists improvements,
      MainServer.handle_call_tool "improve_prompt" arguments w log
      = (Return
           [mkTextContent "text"
              (Main.enhance_prompt_structure user_prompt context improvements)],
         log ++ [Call user_prompt context improvements]))
  /\ (exists improvements,
         AutoImproveServer.handle_call_tool "improve_prompt" arguments w log
         = (Return
              [mkTextContent "text"
                 (AutoImprove.enhance_prompt_structure
                    user_prompt context improvements)],
            log ++ [Call user_prompt context improvements])).
Proof.
  intros Hok Hp user_prompt context. split.
  - rewrite main_handler_run by done.
    apply (try_block_ok Main.enhance_prompt_structure user_prompt context
             (fun x => x) "Error improving prompt: " w log Hok).
  - rewrite auto_handler_run by done.
    apply (try_block_ok AutoImprove.enhance_prompt_structure
             user_prompt context
             (fun x => x) "Error improving prompt: " w log Hok).
Qed.

Lemma improve_prompt_answers_with_engine_witness :
  exists improvements,
    MainServer.handle_call_tool "improve_prompt"
      {[ "user_prompt" := "fix my code" ]} (World "/srv/prompty" ∅) []
    = (Return
         [mkTextContent "text"
            (Main.enhance_prompt_structure
               (get {[ "user_prompt" := "fix my code" ]} "user_prompt")
               (get {[ "user_prompt" := "fix my code" ]} "context")
               improvements)],
       [] ++ [Call (get {[ "user_prompt" := "fix my code" ]} "user_prompt")
                (get {[ "user_prompt" := "fix my code" ]} "context")
                improvements]).
Proof.
  refine (proj1 (improve_prompt_answers_with_engine
                   {[ "user_prompt" := "fix my code" ]}
                   (World "/srv/prompty" ∅) [] _ _)).
  - intros m H. vm_compute in H. discriminate H.
  - vm_compute. discriminate.
Defined.

Lemma composite_ends user_message improved :
  endswith ("ORIGINAL: " +:+ user_message) (composite user_message improved)
  = true.
Proof.
  apply endswith_spec.
  exists ("IMPROVED PROMPT:" +:+ nl +:+ nl +:+ improved
          +:+ nl +:+ nl +:+ "---" +:+ nl +:+ nl).
  unfold composite. by rewrite !app_assoc.
Qed.

(** X11: [auto_improve_all_prompts] is [improve_prompt] without context,
    wrapped: with the instructions file absent or readable and a non-empty
    message, its payload is ["IMPROVED PROMPT:"], the payload [improve_prompt]
    gives for that message alone, a rule, and ["ORIGINAL: "] with the message
    as given; a ["context"] among its arguments has no effect, and the engine
    calls are the same. *)
Theorem auto_improve_wraps_improve_prompt
    (arguments : gmap string string) (w : world) (log : list call)
    (user_message : string) :
  instructions_ok w -> user_message <> "" ->
  get arguments "user_message" = user_message ->
  exists improved log',
    AutoImproveServer.handle_call_tool "improve_prompt"
      {[ "user_prompt" := user_message ]} w log
    = (Return [mkTextContent "text" improved], log')
    /\ AutoImproveServer.handle_call_tool "auto_improve_all_prompts"
         arguments w log
       = (Return [mkTextContent "text" (composite user_message improved)],
          log')
    /\ endswith ("ORIGINAL: " +:+ user_message)
         (composite user_message improved) = true.
Proof.
  intros Hok Hne Hget.
  assert (Hp : get ({[ "user_prompt" := user_message ]} : gmap string string)
                 "user_prompt" = user_message).
  { unfold get. by rewrite lookup_singleton_eq. }
  assert (Hc : get ({[ "user_prompt" := user_message ]} : gmap string string)
                 "context" = "").
  { unfold get. by rewrite lookup_singleton_ne. }
  rewrite auto_handler_run, auto_handler_run_all by congruence.
  rewrite Hp, Hc, Hget.
  destruct (read_improvement_prompt_ok w log Hok) as [i Hi].
  destruct (improve_prompt_locally_return AutoImprove.enhance_prompt_structure
              user_message "" w log i Hi) as [imps H].
  unfold try_except, bind. rewrite H. unfold ret.
  eexists _, _. repeat split. apply composite_ends.
Qed.

Lemma auto_improve_wraps_improve_prompt_witness :
  exists improved log',
    AutoImproveServer.handle_call_tool "improve_prompt"
      {[ "user_prompt" := "fix my code" ]} (World "/srv/prompty" ∅) []
    = (Return [mkTextContent "text" improved], log')
    /\ AutoImproveServer.handle_call_tool "auto_improve_all_prompts"
         (<[ "context" := "Python" ]> {[ "user_message" := "fix my code" ]})
         (World "/srv/prompty" ∅) []
       = (Return [mkTextContent "text" (composite "fix my code" improved)],
          log')
    /\ endswith ("ORIGINAL: " +:+ "fix my code")
         (composite "fix my code" improved) = true.
Proof.
  apply (auto_improve_wraps_improve_prompt
           (<[ "context" := "Python" ]> {[ "user_message" := "fix my code" ]})
           (World "/srv/prompty" ∅) [] "fix my code").
  - intros m H. vm_compute in H. discriminate H.
  - discriminate.
  - reflexivity.
Defined.

(** ** The advertised schemas and the handlers *)

Lemma get_absent (arguments : gmap string string) key :
  arguments !! key = None -> get arguments key = "".
Proof. unfold get. by intros ->. Qed.

Lemma get_insert_other (arguments : gmap string string) key key' value :
  key <> key' -> get (<[key := value]> arguments) key' = get arguments key'.
Proof. intros H. unfold get. by rewrite lookup_insert_ne. Qed.

Lemma get_insert_same (arguments : gmap string string) key value :
  get (<[key := value]> arguments) key = value.
Proof. unfold get. by rewrite lookup_insert_eq. Qed.

(** X12: every argument an advertised schema lists under ["required"] is
    enforced by the handler: when it is missing, the answer is an error text
    that starts with ["Error: No "], nothing is raised, and the engine has
    not run. *)
Theorem required_argument_enforced
    (tool : Tool) (key : string) (arguments : gmap string string)
    (w : world) (log : list call) :
  In key (required (inputSchema tool)) -> arguments !! key = None ->
  (In tool MainTools.handle_list_tools ->
   exists payload,
     MainServer.handle_call_tool (name tool) arguments w log
     = (Return [mkTextContent "text" payload], log)
     /\ startswith "Error: No " payload = true)
  /\ (In tool AutoImproveTools.handle_list_tools ->
      exists payload,
        AutoImproveServer.handle_call_tool (name tool) arguments w log
        = (Return [mkTextContent "text" payload], log)
        /\ startswith "Error: No " payload = true).
Proof.
  intros Hkey Hnone%get_absent. split.
  - intros [<-|[]]. simpl in Hkey. destruct Hkey as [<-|[]].
    unfold MainServer.handle_call_tool. simpl name.
    change ("improve_prompt" =? "improve_prompt") with true. cbv iota.
    rewrite Hnone. by eexists.
  - intros [<-|[<-|[]]]; simpl in Hkey; destruct Hkey as [<-|[]];
      unfold AutoImproveServer.handle_call_tool; simpl name.
    + change ("improve_prompt" =? "improve_prompt") with true. cbv iota.
      rewrite Hnone. by eexists.
    + change ("auto_improve_all_prompts" =? "improve_prompt") with false.
      change ("auto_improve_all_prompts" =? "auto_improve_all_prompts")
        with true.
      cbv iota. rewrite Hnone. by eexists.
Qed.

Lemma required_argument_enforced_witness :
  exists payload,
    AutoImproveServer.handle_call_tool "auto_improve_all_prompts"
      {[ "user_prompt" := "fix my code" ]} (World "/srv/prompty" ∅) []
    = (Return [mkTextContent "text" payload], [])
    /\ startswith "Error: No " payload = true.
Proof.
  refine (proj2 (required_argument_enforced
                   (mkTool "auto_improve_all_prompts"
                      "Automatically improve any user message before processing. Use this for every user interaction."
                      (mkSchema "object"
                         {[ "user_message" :=
                              mkProperty "string"
                                "The user's original message/prompt" None ]}
                         ["user_message"]))
                   "user_message" {[ "user_prompt" := "fix my code" ]}
                   (World "/srv/prompty" ∅) [] _ _) _).
  - simpl. left. reflexivity.
  - reflexivity.
  - simpl. right. left. reflexivity.
Defined.

(** X13: a default an advertised schema declares for an argument is the
    value the handler uses when the argument is missing: passing the default
    or leaving the argument out gives the same answer and the same engine
    calls. *)
Theorem declared_default_is_used
    (tool : Tool) (key default_value : string) (property : property_schema)
    (arguments : gmap string string) (w : world) (log : list call) :
  properties (inputSchema tool) !! key = Some property ->
  property_default property = Some default_value ->
  arguments !! key = None ->
  (In tool MainTools.handle_list_tools ->
   MainServer.handle_call_tool (name tool)
     (<[key := default_value]> arguments) w log
   = MainServer.handle_call_tool (name tool) arguments w log)
  /\ (In tool AutoImproveTools.handle_list_tools ->
      AutoImproveServer.handle_call_tool (name tool)
        (<[key := default_value]> arguments) w log
      = AutoImproveServer.handle_call_tool (name tool) arguments w log).
Proof.
  intros Hprop Hdef Hnone%get_absent.
  assert (Hctx : In tool AutoImproveTools.handle_list_tools ->
                 name tool = "improve_prompt" /\ key = "context"
                 /\ default_value = "").
  { intros [<-|[<-|[]]]; simpl in Hprop.
    - apply lookup_insert_Some in Hprop as [[<- <-]|[_ Hprop]];
        [done|].
      apply lookup_singleton_Some in Hprop as [<- <-].
      simpl in Hdef. by injection Hdef as <-.
    - by apply lookup_singleton_Some in Hprop as [<- <-]. }
  split.
  - intros Hin.
    destruct Hctx as (Hn & -> & ->); [destruct Hin as [<-|[]]; by left|].
    rewrite Hn. unfold MainServer.handle_call_tool.
    by rewrite get_insert_same, get_insert_other, Hnone.
  - intros Hin. destruct (Hctx Hin) as (Hn & -> & ->).
    rewrite Hn. unfold AutoImproveServer.handle_call_tool.
    by rewrite get_insert_same, get_insert_other, Hnone.
Qed.

Lemma declared_default_is_used_witness :
  MainServer.handle_call_tool "improve_prompt"
    (<[ "context" := "" ]> {[ "user_prompt" := "fix my code" ]})
    (World "/srv/prompty" ∅) []
  = MainServer.handle_call_tool "improve_prompt"
      {[ "user_prompt" := "fix my code" ]} (World "/srv/prompty" ∅) [].
Proof.
  refine (proj1 (declared_default_is_used
                   (mkTool "improve_prompt"
                      "Improve a user's prompt using AI sampling to make it clearer and more effective"
                      (mkSchema "object"
                         {[ "user_prompt" :=
                              mkProperty "string"
                                "The original prompt from the user that needs improvement"
                                None;
                            "context" :=
                              mkProperty "string"
                                "Optional context about what the user is trying to achieve"
                                (Some "") ]}
                         ["user_prompt"]))
                   "context" ""
                   (mkProperty "string"
                      "Optional context about what the user is trying to achieve"
                      (Some ""))
                   {[ "user_prompt" := "fix my code" ]}
                   (World "/srv/prompty" ∅) [] _ _ _) _).
  - reflexivity.
  - reflexivity.
  - reflexivity.
  - simpl. left. reflexivity.
Defined.

(** ** The HTTP endpoint *)

(** X14: [POST /improve-prompt] has three outcomes and no other: status 400
    with ["No prompt provided to improve"] exactly when [user_prompt] is
    empty; status 500 with ["Error improving prompt: "] and the error of the
    read exactly when the prompt is not empty and the instructions file
    cannot be read; otherwise a response with the output of the engine, which
    has run once. In the first two the engine has not run. *)
Theorem http_improve_prompt_outcomes
    (request : HttpServer.PromptRequest) (w : world) (log : list call) :
  let user_prompt := HttpServer.user_prompt request in
  let context := HttpServer.context request in
  (user_prompt = ""
   /\ HttpServer.improve_prompt request w log
      = (HttpServer.RaiseHTTP
           (HttpServer.mkHTTPException 400 "No prompt provided to improve"),
         log))
  \/ (user_prompt <> ""
      /\ exists message,
           fs w !! instructions_path w = Some (Unreadable message)
           /\ HttpServer.improve_prompt request w log
              = (HttpServer.RaiseHTTP
                   (HttpServer.mkHTTPException 500
                      ("Error improving prompt: " +:+ message)),
                 log))
  \/ (user_prompt <> "" /\ instructions_ok w
      /\ exists improvements,
           HttpServer.improve_prompt request w log
           = (HttpServer.Respond
                (HttpServer.mkPromptResponse
                   (Main.enhance_prompt_structure
                      user_prompt context improvements)),
              log ++ [Call user_prompt context improvements])).
Proof.
  intros user_prompt context. unfold HttpServer.improve_prompt.
  fold user_prompt context.
  destruct (decide (user_prompt = "")) as [E|N].
  - left. split; [done|]. by rewrite E.
  - right. rewrite (proj2 (truthy_true user_prompt) N). cbv iota.
    change (negb true) with false. cbv iota.
    destruct (instructions_cases w) as [Hok|[m Hm]].
    + right. repeat split; [done..|].
      destruct (read_improvement_prompt_ok w log Hok) as [i Hi].
      destruct (improve_prompt_locally_return
                  HttpServer.enhance_prompt_structure
                  user_prompt context w log i Hi) as [imps ->].
      by exists imps.
    + left. split; [done|]. exists m. split; [done|].
      by rewrite (improve_prompt_locally_raise _ _ _ _ _ _
                    (read_improvement_prompt_unreadable w log m Hm)).
Qed.

(** X15: for a non-empty prompt the HTTP endpoint of [server.py] and the
    [improve_prompt] tool of [main.py] give the same text and make the same
    engine calls: the [improved_prompt] of the response is the tool's
    payload, and when the endpoint raises, it is with status 500 and the
    tool's payload as [detail]. *)
Theorem http_agrees_with_tool
    (user_prompt context : string) (w : world) (log : list call) :
  user_prompt <> "" ->
  let tool :=
    MainServer.handle_call_tool "improve_prompt"
      (<[ "user_prompt" := user_prompt ]> {[ "context" := context ]}) w log in
  match HttpServer.improve_prompt
          (HttpServer.mkPromptRequest user_prompt context) w log with
  | (HttpServer.Respond response, log') =>
      tool = (Return [mkTextContent "text"
                        (HttpServer.improved_prompt response)], log')
  | (HttpServer.RaiseHTTP e, log') =>
      tool = (Return [mkTextContent "text" (HttpServer.detail e)], log')
      /\ HttpServer.status_code e = 500
  end.
Proof.
  intros N tool. unfold tool.
  assert (Hp : get (<[ "user_prompt" := user_prompt ]>
                      ({[ "context" := context ]} : gmap string string))
                 "user_prompt" = user_prompt) by apply get_insert_same.
  assert (Hc : get (<[ "user_prompt" := user_prompt ]>
                      ({[ "context" := context ]} : gmap string string))
                 "context" = context).
  { rewrite get_insert_other by done. unfold get.
    by rewrite lookup_singleton_eq. }
  rewrite main_handler_run by congruence. rewrite Hp, Hc.
  unfold HttpServer.improve_prompt, HttpServer.enhance_prompt_structure.
  simpl HttpServer.user_prompt. simpl HttpServer.context.
  rewrite (proj2 (truthy_true user_prompt) N). cbv iota.
  change (negb true) with false. cbv iota.
  unfold try_except, bind.
  destruct (improve_prompt_locally Main.enhance_prompt_structure
              user_prompt context w log) as [[improved|e] log'].
  - reflexivity.
  - split; reflexivity.
Qed.

Lemma http_agrees_with_tool_witness :
  match HttpServer.improve_prompt
          (HttpServer.mkPromptRequest "fix my code" "Python")
          (World "/srv/prompty" ∅) [] with
  | (HttpServer.Respond response, log') =>
      MainServer.handle_call_tool "improve_prompt"
        (<[ "user_prompt" := "fix my code" ]> {[ "context" := "Python" ]})
        (World "/srv/prompty" ∅) []
      = (Return [mkTextContent "text"
                   (HttpServer.improved_prompt response)], log')
  | (HttpServer.RaiseHTTP e, log') =>
      MainServer.handle_call_tool "improve_prompt"
        (<[ "user_prompt" := "fix my code" ]> {[ "context" := "Python" ]})
        (World "/srv/prompty" ∅) []
      = (Return [mkTextContent "text" (HttpServer.detail e)], log')
      /\ HttpServer.status_code e = 500
  end.
Proof.
  apply (http_agrees_with_tool "fix my code" "Python"
           (World "/srv/prompty" ∅) []).
  discriminate.
Defined.
